(** * run-save-bb8.py: the solver driver and its plot, verified

    The script launches the [save-bb8] solver, reads the two text files the
    solver leaves in the output directory with [numpy.loadtxt], and draws
    the configuration space with the solution path on top of it.

    The development embeds the script as a program in a small state and
    exception monad.  The state holds the files on disk and the trace of
    the effects that the script performs in order (process launch, prints,
    file probes, drawing calls).  The library calls the script makes are
    embedded as far as the script observes them: text decoding and line
    iteration, the tokenising and shape handling of [loadtxt], array
    indexing, and the shape requirement of [pcolormesh]. *)

From Stdlib Require Import ZArith QArith List String Ascii Bool Lia.
From stdpp Require Import base gmap strings list.

Local Open Scope list_scope.

(** ** Text layer *)

Module Text.

Definition LF : ascii := "010"%char.
Definition CR : ascii := "013"%char.
Definition SPACE : ascii := " "%char.
Definition HASH : ascii := "#"%char.
Definition NL : string := String LF EmptyString.

Definition starts_with (c : ascii) (s : string) : bool :=
  match s with
  | String c' _ => Ascii.eqb c' c
  | EmptyString => false
  end.

(** Files are opened in text mode: a carriage return followed by a line
    feed, and a carriage return alone, both read as one line feed. *)
Fixpoint universal_newlines (s : string) : string :=
  match s with
  | EmptyString => EmptyString
  | String c s' =>
      if Ascii.eqb c CR then
        if starts_with LF s' then universal_newlines s'
        else String LF (universal_newlines s')
      else String c (universal_newlines s')
  end.

(** Iterating over a text file: one string per line, the terminator
    removed; a last line without terminator still counts. *)
Fixpoint readlines (s : string) : list string :=
  match s with
  | EmptyString => []
  | String c s' =>
      if Ascii.eqb c LF then EmptyString :: readlines s'
      else match readlines s' with
           | [] => [String c EmptyString]
           | l :: ls => String c l :: ls
           end
  end.

(** [line.split(c, 1)[0]]: the part of the line before the first [c]. *)
Fixpoint before (c : ascii) (s : string) : string :=
  match s with
  | EmptyString => EmptyString
  | String a s' => if Ascii.eqb a c then EmptyString else String a (before c s')
  end.

(** [s.split(d)] with an explicit one-character delimiter: every
    occurrence of [d] separates two fields, so two delimiters in a row
    enclose an empty field and the empty string has one empty field. *)
Fixpoint split (d : ascii) (s : string) : list string :=
  match s with
  | EmptyString => [EmptyString]
  | String a s' =>
      if Ascii.eqb a d then EmptyString :: split d s'
      else match split d s' with
           | [] => [String a EmptyString]
           | f :: fs => String a f :: fs
           end
  end.

(** [d.join(fields)] *)
Fixpoint join (d : ascii) (fields : list string) : string :=
  match fields with
  | [] => EmptyString
  | [f] => f
  | f :: fs => f +:+ String d (join d fs)
  end.

(** A text file written line by line, each line terminated. *)
Fixpoint unlines (ls : list string) : string :=
  match ls with
  | [] => EmptyString
  | l :: ls' => l +:+ String LF (unlines ls')
  end.

(** [c] does not occur in [s]. *)
Fixpoint free_of (c : ascii) (s : string) : bool :=
  match s with
  | EmptyString => true
  | String a s' => negb (Ascii.eqb a c) && free_of c s'
  end.

(** A line of the header: anything that stays on one line. *)
Definition one_line (l : string) : bool := free_of LF l && free_of CR l.

(** A field as a writer of the file emits it: not empty and free of the
    delimiter, the comment marker and line ends. *)
Definition clean_field (f : string) : bool :=
  negb (String.eqb f EmptyString)
  && free_of SPACE f && free_of HASH f && free_of LF f && free_of CR f.

Definition clean_row (row : list string) : bool :=
  match row with
  | [] => false
  | _ => forallb clean_field row
  end.

(** The same text as a writer on Windows leaves it: every line feed
    preceded by a carriage return. *)
Fixpoint to_crlf (s : string) : string :=
  match s with
  | EmptyString => EmptyString
  | String c s' =>
      if Ascii.eqb c LF then String CR (String LF (to_crlf s'))
      else String c (to_crlf s')
  end.

(** The text of a file with the given header lines followed by one line
    per row, the fields of a row separated by one space. *)
Definition table_text (header : list string) (rows : list (list string)) : string :=
  unlines (header ++ map (join SPACE) rows).

End Text.

(** ** Exceptions the script can end with *)

Inductive exception :=
| IndexError (msg : string)
| ValueError (msg : string)
| OSError (msg : string)
| CalledProcessError (returncode : Z) (cmd : list string) (output : string)
| Exception (args : list string).

Definition is_ValueError (e : exception) : bool :=
  match e with ValueError _ => true | _ => false end.

(** ** Arrays and [numpy.loadtxt] *)

Module Numpy.
Section WithFloat.

(** The element type of the arrays and the conversion [loadtxt] applies
    to every field.  Both belong to the library; the development is
    parametric in them and [Decimal.to_float] below is the instance the
    examples run with. *)
Context {F : Type} (to_float : string -> option F).

(** Arrays of the three ranks the script can meet. *)
Inductive ndarray :=
| Scalar (v : F)
| Vector (vs : list F)
| Matrix (rows : list (list F)) (ncols : nat).

Definition shape (a : ndarray) : list nat :=
  match a with
  | Scalar _ => []
  | Vector vs => [length vs]
  | Matrix rows ncols => [length rows; ncols]
  end.

(** [a.size]: the product of the shape. *)
Definition size (a : ndarray) : nat := fold_right Nat.mul 1 (shape a).

(** [a[:, k]] *)
Definition column (a : ndarray) (k : nat) : exception + list F :=
  match a with
  | Matrix rows ncols =>
      if (k <? ncols)%nat then
        match mapM (fun r : list F => r !! k) rows with
        | Some col => inr col
        | None => inl (IndexError "index is out of bounds for axis 1")
        end
      else inl (IndexError "index is out of bounds for axis 1")
  | _ => inl (IndexError "too many indices for array")
  end.

(** One line of the file as [loadtxt] sees it with [delimiter=' '] and
    the default comment marker: the comment is cut off, a line with
    nothing left has no fields, any other line is split at every
    space. *)
Definition split_line (line : string) : list string :=
  match Text.before Text.HASH line with
  | EmptyString => []
  | data => Text.split Text.SPACE data
  end.

Definition has_data (vals : list string) : bool :=
  match vals with [] => false | _ => true end.

(** The rows that carry data, after [skiprows] physical lines. *)
Definition data_rows (skiprows : nat) (text : string) : list (list string) :=
  List.filter has_data
    (map split_line (drop skiprows (Text.readlines (Text.universal_newlines text)))).

Fixpoint convert_row (vals : list string) : exception + list F :=
  match vals with
  | [] => inr []
  | val :: rest =>
      match to_float val with
      | None => inl (ValueError ("could not convert string to float: " +:+ val))
      | Some v =>
          match convert_row rest with
          | inl e => inl e
          | inr vs => inr (v :: vs)
          end
      end
  end.

(** Rows are taken in order; each must have as many fields as the first
    one had, and each field must convert. *)
Fixpoint read_rows (ncols : nat) (rows : list (list string))
  : exception + list (list F) :=
  match rows with
  | [] => inr []
  | vals :: rest =>
      if (length vals =? ncols)%nat then
        match convert_row vals with
        | inl e => inl e
        | inr r =>
            match read_rows ncols rest with
            | inl e => inl e
            | inr rs => inr (r :: rs)
            end
        end
      else inl (ValueError "the number of columns changed")
  end.

(** Every row as wide as [ncols]. *)
Definition uniform (ncols : nat) (rows : list (list string)) : bool :=
  forallb (fun vals => (length vals =? ncols)%nat) rows.

Definition first_row (rows : list (list string)) : list string :=
  match rows with
  | [] => []
  | vals :: _ => vals
  end.

Definition first_width (rows : list (list string)) : nat :=
  length (first_row rows).

(** The table before any reshaping. *)
Definition read_table (skiprows : nat) (text : string)
  : exception + list (list F) :=
  let rows := data_rows skiprows text in
  read_rows (first_width rows) rows.

(** [ndmin=0]: axes of length one are dropped from the result.  A table
    without rows comes back as an empty vector. *)
Definition squeeze (rows : list (list F)) (ncols : nat) : ndarray :=
  match rows with
  | [] => Vector []
  | [r] =>
      match r with
      | [v] => Scalar v
      | _ => Vector r
      end
  | _ => if (ncols =? 1)%nat then Vector (concat rows) else Matrix rows ncols
  end.

(** The reader warns when it met no data at all. *)
Definition no_data (skiprows : nat) (text : string) : bool :=
  match data_rows skiprows text with
  | [] => true
  | _ => false
  end.

(** [np.loadtxt(text, delimiter=' ', skiprows=skiprows)] on the contents
    of a file. *)
Definition loadtxt_text (skiprows : nat) (text : string) : exception + ndarray :=
  match read_table skiprows text with
  | inl e => inl e
  | inr rows => inr (squeeze rows (first_width (data_rows skiprows text)))
  end.

End WithFloat.
End Numpy.

Arguments Numpy.ndarray : clear implicits.

(** ** The script *)

Module Script.

(** What [print] can be handed in this script. *)
Inductive pyobj :=
| PStr (s : string)
| PInt (z : Z)
| PList (l : list string).

(** How a launch of the solver ends. *)
Inductive completed :=
| LaunchFailed (msg : string)
| Exited (returncode : Z) (output : string).

(** Everything the script takes from outside: the platform name, the
    directory of the script, the command line, and what running a command
    does: how the process ends and which files it leaves behind. *)
Record environment := {
  platform_system : string;
  script_parent : string;
  sys_argv : list string;
  exec : list string -> gmap string string -> completed * gmap string string
}.

Section WithFloat.

Context {F : Type} (to_float : string -> option F).

Inductive event :=
| Spawn (cmd : list string)
| Print (args : list pyobj)
| Warn (msg : string)
| IsFile (path : string)
| Open (path : string)
| Subplots
| Pcolormesh (C : list (list F)) (cmap : string)
| Plot (x y : list F) (linewidth color : string)
| Show
| Savefig (fname : string).

Record state := { files : gmap string string; trace : list event }.

(** Actions: run from a state, end in a value or an exception. *)
Definition action (A : Type) : Type := state -> (exception + A) * state.

Definition ret {A} (a : A) : action A := fun st => (inr a, st).

Definition raise {A} (e : exception) : action A := fun st => (inl e, st).

Definition bind {A B} (m : action A) (k : A -> action B) : action B :=
  fun st =>
    match m st with
    | (inl e, st') => (inl e, st')
    | (inr a, st') => k a st'
    end.

Notation "x <- m ;; k" := (bind m (fun x => k))
  (at level 100, m at next level, right associativity).
Notation "m ;; k" := (bind m (fun _ => k))
  (at level 100, right associativity).

Definition log (e : event) : action unit :=
  fun st => (inr tt, {| files := files st; trace := trace st ++ [e] |}).

Definition lift {A} (r : exception + A) : action A :=
  match r with
  | inl e => raise e
  | inr a => ret a
  end.

(** [try: body except ...: handler]: the handler says which exceptions
    it takes. *)
Definition try_except {A} (body : action A)
    (handler : exception -> option (action A)) : action A :=
  fun st =>
    match body st with
    | (inl e, st') =>
        match handler e with
        | Some h => h st'
        | None => (inl e, st')
        end
    | (inr a, st') => (inr a, st')
    end.

Variable env : environment.

(** *** Constants *)

Definition path_join (dir name : string) : string := dir +:+ "/" +:+ name.

Definition is_windows : bool := String.eqb (platform_system env) "Windows".

Definition _PROJECT_DIR : string := script_parent env.
Definition _BIN_DIR : string :=
  path_join _PROJECT_DIR (if is_windows then "win_build/bin/Release" else "build/bin").
Definition _EXE_NAME : string :=
  "save-bb8" +:+ (if is_windows then ".exe" else EmptyString).
Definition SAVE_BB8 : string := path_join _BIN_DIR _EXE_NAME.

Definition _OUTPUT_DIR : string := path_join _PROJECT_DIR "output".
Definition CONFIG_SPACE_FILE : string := path_join _OUTPUT_DIR "config-space.txt".
Definition SOLUTION_PATH_FILE : string := path_join _OUTPUT_DIR "solution-path.txt".

(** *** Library calls *)

(** [sys.argv[i]] *)
Definition argv (i : nat) : action string :=
  match sys_argv env !! i with
  | Some a => ret a
  | None => raise (IndexError "list index out of range")
  end.

(** [sp.check_output(cmd, stderr=sp.STDOUT, universal_newlines=True)] *)
Definition check_output (cmd : list string) : action string :=
  log (Spawn cmd) ;;
  fun st =>
    let (how, disk) := exec env cmd (files st) in
    let st' := {| files := disk; trace := trace st |} in
    match how with
    | LaunchFailed msg => (inl (OSError msg), st')
    | Exited returncode output =>
        if (returncode =? 0)%Z then (inr output, st')
        else (inl (CalledProcessError returncode cmd output), st')
    end.

Definition print (args : list pyobj) : action unit := log (Print args).

(** [path.is_file()] *)
Definition is_file (path : string) : action bool :=
  log (IsFile path) ;;
  fun st =>
    match files st !! path with
    | Some _ => (inr true, st)
    | None => (inr false, st)
    end.

Definition read_text (path : string) : action string :=
  log (Open path) ;;
  fun st =>
    match files st !! path with
    | Some text => (inr text, st)
    | None => (inl (OSError (path +:+ " not found.")), st)
    end.

(** [np.loadtxt(fname, delimiter=' ', skiprows=skiprows)]; a file without
    data earns a warning, not an exception. *)
Definition loadtxt (fname : string) (skiprows : nat) : action (Numpy.ndarray F) :=
  text <- read_text fname ;;
  a <- lift (Numpy.loadtxt_text to_float skiprows text) ;;
  (if Numpy.no_data skiprows text
   then log (Warn "loadtxt: input contained no data")
   else ret tt) ;;
  ret a.

Definition subplots : action unit := log Subplots.

(** [ax.pcolormesh(C, cmap=cmap)]: the colour array must have rows and
    columns. *)
Definition pcolormesh (C : Numpy.ndarray F) (cmap : string) : action unit :=
  match C with
  | Numpy.Matrix rows _ => log (Pcolormesh rows cmap)
  | _ => raise (ValueError "not enough values to unpack (expected 2)")
  end.

Definition plot (x y : list F) (linewidth color : string) : action unit :=
  log (Plot x y linewidth color).

Definition show : action unit := log Show.

Definition savefig (fname : string) : action unit := log (Savefig fname).

(** *** [main] *)

Definition main : action unit :=
  M <- argv 1 ;;
  N <- argv 2 ;;
  robot_radius <- argv 3 ;;
  obstacle_config <- argv 4 ;;
  let cmd := [SAVE_BB8; M; N; robot_radius; obstacle_config] in
  try_except (output <- check_output cmd ;; ret tt)
    (fun e =>
       match e with
       | CalledProcessError returncode cmd output =>
           Some (print [PStr "WARNING: running save-bb8 had issues:"; PStr Text.NL;
                        PStr "cmd:"; PList cmd; PStr Text.NL;
                        PStr "returncode:"; PInt returncode; PStr Text.NL;
                        PStr "output:"; PStr output])
       | _ => None
       end) ;;
  found <- is_file CONFIG_SPACE_FILE ;;
  if negb found then
    raise (Exception ["Config space file not found: "; CONFIG_SPACE_FILE])
  else
  found <- is_file SOLUTION_PATH_FILE ;;
  if negb found then
    raise (Exception ["Solution path file found: "; SOLUTION_PATH_FILE])
  else
  config_space <- loadtxt CONFIG_SPACE_FILE 3 ;;
  solution_path <- loadtxt SOLUTION_PATH_FILE 0 ;;
  subplots ;;
  pcolormesh config_space "jet" ;;
  (if negb (Numpy.size solution_path =? 0)%nat then
     x <- lift (Numpy.column solution_path 0) ;;
     y <- lift (Numpy.column solution_path 1) ;;
     plot x y "5" "cyan"
   else ret tt) ;;
  show ;;
  savefig "solution.png".

(** The part of [main] that follows the [try] statement, from the check
    for the data files to the saved figure, on its own; [main] is the
    launch followed by it (lemma [run_exited]). *)
Definition after_solver : action unit :=
  found <- is_file CONFIG_SPACE_FILE ;;
  if negb found then
    raise (Exception ["Config space file not found: "; CONFIG_SPACE_FILE])
  else
  found <- is_file SOLUTION_PATH_FILE ;;
  if negb found then
    raise (Exception ["Solution path file found: "; SOLUTION_PATH_FILE])
  else
  config_space <- loadtxt CONFIG_SPACE_FILE 3 ;;
  solution_path <- loadtxt SOLUTION_PATH_FILE 0 ;;
  subplots ;;
  pcolormesh config_space "jet" ;;
  (if negb (Numpy.size solution_path =? 0)%nat then
     x <- lift (Numpy.column solution_path 0) ;;
     y <- lift (Numpy.column solution_path 1) ;;
     plot x y "5" "cyan"
   else ret tt) ;;
  show ;;
  savefig "solution.png".

(** The drawing statements at the end of [main] on their own. *)
Definition draw (config_space solution_path : Numpy.ndarray F) : action unit :=
  subplots ;;
  pcolormesh config_space "jet" ;;
  (if negb (Numpy.size solution_path =? 0)%nat then
     x <- lift (Numpy.column solution_path 0) ;;
     y <- lift (Numpy.column solution_path 1) ;;
     plot x y "5" "cyan"
   else ret tt) ;;
  show ;;
  savefig "solution.png".

(** The warning of [loadtxt] for a file without data. *)
Definition no_data_warning (skiprows : nat) (text : string) : list event :=
  if Numpy.no_data skiprows text
  then [Warn "loadtxt: input contained no data"] else [].

(** The warning [main] prints for a solver that exited with [returncode]. *)
Definition warning (cmd : list string) (returncode : Z) (output : string)
  : list event :=
  if (returncode =? 0)%Z then []
  else [Print [PStr "WARNING: running save-bb8 had issues:"; PStr Text.NL;
               PStr "cmd:"; PList cmd; PStr Text.NL;
               PStr "returncode:"; PInt returncode; PStr Text.NL;
               PStr "output:"; PStr output]].

(** One run of the script on a disk. *)
Definition run (disk : gmap string string) : (exception + unit) * state :=
  main {| files := disk; trace := [] |}.

Definition outcome (disk : gmap string string) : exception + unit := fst (run disk).
Definition effects (disk : gmap string string) : list event := trace (snd (run disk)).

(** *** Reading a trace *)

Definition is_spawn (e : event) : bool :=
  match e with Spawn _ => true | _ => false end.

Definition is_parse (e : event) : bool :=
  match e with Open _ | Warn _ => true | _ => false end.

Definition is_render (e : event) : bool :=
  match e with
  | Subplots | Pcolormesh _ _ | Plot _ _ _ _ | Show | Savefig _ => true
  | _ => false
  end.

Definition is_overlay (e : event) : bool :=
  match e with Plot _ _ _ _ => true | _ => false end.

Definition is_image (e : event) : bool :=
  match e with Savefig _ => true | _ => false end.

(** The events of the launch: the process start and the warning. *)
Definition is_launch (e : event) : bool :=
  match e with Spawn _ | Print _ => true | _ => false end.

Definition is_print (e : event) : bool :=
  match e with Print _ => true | _ => false end.

Definition is_show (e : event) : bool :=
  match e with Show => true | _ => false end.

(** Everything [main] does once the solver is back, the warning apart. *)
Definition is_probe_or_later (e : event) : bool :=
  match e with Spawn _ | Print _ => false | _ => true end.



(** *** Actions that only read the two data files

    Such an action leaves the disk alone, adds its events to the trace
    whatever the trace held before, starts no process and prints nothing,
    and ends the same way and with the same events on two disks that
    agree on the two data files. *)

Definition agree (fs1 fs2 : gmap string string) : Prop :=
  fs1 !! CONFIG_SPACE_FILE = fs2 !! CONFIG_SPACE_FILE
  /\ fs1 !! SOLUTION_PATH_FILE = fs2 !! SOLUTION_PATH_FILE.

Definition local {A} (a : action A) : Prop :=
  forall fs1 fs2 t1 t2, agree fs1 fs2 ->
    exists r evs,
      existsb is_launch evs = false
      /\ a {| files := fs1; trace := t1 |} = (r, {| files := fs1; trace := t1 ++ evs |})
      /\ a {| files := fs2; trace := t2 |} = (r, {| files := fs2; trace := t2 ++ evs |}).

End WithFloat.
End Script.

Arguments Script.event : clear implicits.
Arguments Script.state : clear implicits.
Arguments Script.action : clear implicits.

(** ** A concrete conversion of fields *)

(** Decimal literals as the field conversion reads them: an optional sign,
    digits with an optional fraction, an optional exponent; or one of the
    words [inf], [infinity], [nan] in any case.  A literal stands for the
    exact rational it denotes, in lowest terms; the rounding to a binary
    double is left out, no property below depends on it. *)
Module Decimal.

Inductive value :=
| Finite (q : Q)
| Inf (negative : bool)
| NaN.

Definition digit (c : ascii) : option Z :=
  let n := nat_of_ascii c in
  if ((48 <=? n) && (n <=? 57))%nat then Some (Z.of_nat (n - 48)) else None.

(** Leading digits of [s], appended to the number [acc] read so far;
    with the count of digits read and the rest of the string. *)
Fixpoint digits (acc : Z) (count : nat) (s : string) : Z * nat * string :=
  match s with
  | EmptyString => (acc, count, s)
  | String c s' =>
      match digit c with
      | Some d => digits (10 * acc + d) (S count) s'
      | None => (acc, count, s)
      end
  end.

Definition sign (s : string) : bool * string :=
  match s with
  | String "-" s' => (true, s')
  | String "+" s' => (false, s')
  | _ => (false, s)
  end.

Definition lower_char (c : ascii) : ascii :=
  let n := nat_of_ascii c in
  if ((65 <=? n) && (n <=? 90))%nat then ascii_of_nat (n + 32) else c.

Fixpoint lower (s : string) : string :=
  match s with
  | EmptyString => EmptyString
  | String c s' => String (lower_char c) (lower s')
  end.

(** The exponent part: absent, or [e] or [E], a sign, and digits up to
    the end. *)
Definition exponent (s : string) : option Z :=
  match s with
  | EmptyString => Some 0%Z
  | String c s' =>
      if Ascii.eqb (lower_char c) "e" then
        let (negative, s'') := sign s' in
        match digits 0 0 s'' with
        | (_, O, _) => None
        | (v, _, EmptyString) => Some (if negative then (- v)%Z else v)
        | _ => None
        end
      else None
  end.

Definition to_float (s : string) : option value :=
  let (negative, body) := sign s in
  let word := lower body in
  if String.eqb word "inf" || String.eqb word "infinity" then Some (Inf negative)
  else if String.eqb word "nan" then Some NaN
  else
    let '(whole, nwhole, rest) := digits 0 0 body in
    let '(mantissa, nfrac, rest) :=
      match rest with
      | String "." rest' => digits whole 0 rest'
      | _ => (whole, O, rest)
      end in
    if (nwhole + nfrac =? 0)%nat then None
    else
      match exponent rest with
      | None => None
      | Some e =>
          let m := if negative then (- mantissa)%Z else mantissa in
          Some (Finite (Qred (inject_Z m * Qpower (10 # 1) (e - Z.of_nat nfrac))))
      end.

Definition of_Z (z : Z) : value := Finite (inject_Z z).

End Decimal.

(** ** Sample runs *)

(** A Linux checkout of the project, a solver that ends as told and leaves
    the disk as it found it, and disks holding the two data files. *)
Module Sample.

Definition env (args : list string) (how : Script.completed) : Script.environment :=
  {| Script.platform_system := "Linux";
     Script.script_parent := "/home/kb/shield";
     Script.sys_argv := "run-save-bb8.py" :: args;
     Script.exec := fun _ disk => (how, disk) |}.

Definition grid_path : string := "/home/kb/shield/output/config-space.txt".
Definition path_path : string := "/home/kb/shield/output/solution-path.txt".

Definition header : list string :=
  ["# save-bb8 configuration space"; "rows cols"; "radius 1"].

Definition grid5 : list (list string) :=
  [["0"; "0"; "0"; "0"; "0"];
   ["0"; "1"; "1"; "1"; "0"];
   ["0"; "1"; "0"; "1"; "0"];
   ["0"; "1"; "1"; "1"; "0"];
   ["0"; "0"; "0"; "0"; "0"]].

Definition grid5_values : list (list Decimal.value) :=
  Eval vm_compute in map (map (fun z => Decimal.Finite (z # 1)))
    [[0; 0; 0; 0; 0]; [0; 1; 1; 1; 0]; [0; 1; 0; 1; 0]; [0; 1; 1; 1; 0];
     [0; 0; 0; 0; 0]]%Z.

Definition both (grid path : string) : gmap string string :=
  <[grid_path := grid]> (<[path_path := path]> ∅).

Definition only_grid (grid : string) : gmap string string :=
  <[grid_path := grid]> ∅.

Definition only_path (path : string) : gmap string string :=
  <[path_path := path]> ∅.

Definition ok : Script.completed := Script.Exited 0 "path found".
Definition failed : Script.completed := Script.Exited 1 "no such obstacle layout".

End Sample.

(** ** The parameter check of the specification *)

(** The specification describes a check of the parameters ahead of the
    launch: a numeric field that cannot be parsed, a non-positive [rows] or
    [cols], or a negative [robot_radius] is refused.  The script has no
    counterpart; the definition follows the words of the specification and
    only names the inputs it means. *)
Module Spec.

Definition is_positive (v : Decimal.value) : bool :=
  match v with
  | Decimal.Finite q => (0 <? Qnum q)%Z
  | Decimal.Inf negative => negb negative
  | Decimal.NaN => false
  end.

Definition is_negative (v : Decimal.value) : bool :=
  match v with
  | Decimal.Finite q => (Qnum q <? 0)%Z
  | Decimal.Inf negative => negative
  | Decimal.NaN => false
  end.

Definition invalid_parameters (rows cols robot_radius : string) : bool :=
  match Decimal.to_float rows, Decimal.to_float cols,
        Decimal.to_float robot_radius with
  | Some r, Some c, Some radius =>
      negb (is_positive r) || negb (is_positive c) || is_negative radius
  | _, _, _ => true
  end.

End Spec.

(** * Properties *)

(** ** Writing a table and reading it back *)

Module TextFacts.
Import Text.

#[local] Arguments Ascii.eqb : simpl never.
#[local] Arguments String.eqb : simpl never.

Lemma free_of_app c a b : free_of c (a +:+ b) = free_of c a && free_of c b.
Proof.
  induction a as [|x a IH]; simpl; [reflexivity|].
  rewrite IH. apply andb_assoc.
Qed.

Lemma universal_newlines_id s :
  free_of CR s = true -> universal_newlines s = s.
Proof.
  induction s as [|c s IH]; simpl; [reflexivity|].
  intros H. apply andb_prop in H as [Hc Hs].
  apply negb_true_iff in Hc. rewrite Hc. f_equal. auto.
Qed.

Lemma readlines_line l rest :
  free_of LF l = true -> readlines (l +:+ String LF rest) = l :: readlines rest.
Proof.
  induction l as [|c l IH]; simpl; intros H.
  - reflexivity.
  - apply andb_prop in H as [Hc Hl].
    apply negb_true_iff in Hc. rewrite Hc, (IH Hl). reflexivity.
Qed.

Lemma readlines_unlines ls :
  forallb (free_of LF) ls = true -> readlines (unlines ls) = ls.
Proof.
  induction ls as [|l ls IH]; simpl; intros H; [reflexivity|].
  apply andb_prop in H as [Hl Hls].
  rewrite (readlines_line _ _ Hl), (IH Hls). reflexivity.
Qed.

Lemma free_of_unlines c ls :
  c <> LF -> forallb (free_of c) ls = true -> free_of c (unlines ls) = true.
Proof.
  intros Hc. induction ls as [|l ls IH]; simpl; intros H; [reflexivity|].
  apply andb_prop in H as [Hl Hls].
  rewrite free_of_app, Hl. simpl. rewrite (IH Hls), andb_true_r.
  apply negb_true_iff, Ascii.eqb_neq. congruence.
Qed.

Lemma before_free c s : free_of c s = true -> before c s = s.
Proof.
  induction s as [|a s IH]; simpl; intros H; [reflexivity|].
  apply andb_prop in H as [Ha Hs].
  apply negb_true_iff in Ha. rewrite Ha, (IH Hs). reflexivity.
Qed.

Lemma split_free d f : free_of d f = true -> split d f = [f].
Proof.
  induction f as [|a f IH]; simpl; intros H; [reflexivity|].
  apply andb_prop in H as [Ha Hf].
  apply negb_true_iff in Ha. rewrite Ha, (IH Hf). reflexivity.
Qed.

Lemma split_field d f rest :
  free_of d f = true -> split d (f +:+ String d rest) = f :: split d rest.
Proof.
  induction f as [|a f IH]; simpl; intros H.
  - rewrite Ascii.eqb_refl. reflexivity.
  - apply andb_prop in H as [Ha Hf].
    apply negb_true_iff in Ha. rewrite Ha, (IH Hf). reflexivity.
Qed.

Lemma split_join d f fields :
  forallb (free_of d) (f :: fields) = true ->
  split d (join d (f :: fields)) = f :: fields.
Proof.
  revert f. induction fields as [|g fields IH]; intros f H.
  - simpl in *. rewrite andb_true_r in H. apply split_free, H.
  - change (join d (f :: g :: fields)) with (f +:+ String d (join d (g :: fields))).
    simpl in H. apply andb_prop in H as [Hf Hrest].
    rewrite (split_field _ _ _ Hf). f_equal. apply IH. exact Hrest.
Qed.

Lemma free_of_join c d fields :
  c <> d -> forallb (free_of c) fields = true -> free_of c (join d fields) = true.
Proof.
  intros Hcd. induction fields as [|f fields IH]; intros H; [reflexivity|].
  simpl in H. apply andb_prop in H as [Hf Hrest].
  destruct fields as [|g fields]; [exact Hf|].
  change (join d (f :: g :: fields)) with (f +:+ String d (join d (g :: fields))).
  rewrite free_of_app, Hf. cbn [free_of andb]. rewrite (IH Hrest), andb_true_r.
  apply negb_true_iff, Ascii.eqb_neq. congruence.
Qed.

Lemma clean_field_parts f :
  clean_field f = true ->
  f <> EmptyString /\ free_of SPACE f = true /\ free_of HASH f = true
  /\ free_of LF f = true /\ free_of CR f = true.
Proof.
  unfold clean_field. intros H.
  repeat (apply andb_prop in H as [H ?]).
  apply negb_true_iff, String.eqb_neq in H. auto.
Qed.

Lemma clean_fields_free c row :
  (c = SPACE \/ c = HASH \/ c = LF \/ c = CR) ->
  forallb clean_field row = true -> forallb (free_of c) row = true.
Proof.
  intros Hc. induction row as [|f row IH]; simpl; intros H; [reflexivity|].
  apply andb_prop in H as [Hf Hrow].
  rewrite (IH Hrow), andb_true_r.
  apply clean_field_parts in Hf as (_ & ? & ? & ? & ?).
  destruct Hc as [->|[->|[->| ->]]]; assumption.
Qed.

Lemma join_nonempty d f fields :
  f <> EmptyString -> join d (f :: fields) <> EmptyString.
Proof.
  intros Hf. destruct fields; simpl; [exact Hf|].
  destruct f; [congruence | discriminate].
Qed.

End TextFacts.

(** ** What [loadtxt] accepts and what it returns *)

Module NumpyFacts.
Import Text TextFacts Numpy.

Section WithFloat.

Context {F : Type} (to_float : string -> option F).

Lemma convert_row_inr vals vs :
  convert_row to_float vals = inr vs <-> mapM to_float vals = Some vs.
Proof.
  revert vs. induction vals as [|val vals IH]; intros vs; simpl.
  - split; intros H; inversion H; reflexivity.
  - destruct (to_float val) as [v|]; simpl; [|split; discriminate].
    destruct (convert_row to_float vals) as [e|ws].
    + destruct (mapM to_float vals) as [ws|] eqn:E; simpl.
      * discriminate (proj2 (IH ws) eq_refl).
      * split; discriminate.
    + rewrite (proj1 (IH ws) eq_refl). simpl.
      split; intros H; inversion H; reflexivity.
Qed.

Lemma convert_row_inl vals e :
  convert_row to_float vals = inl e -> is_ValueError e = true.
Proof.
  revert e. induction vals as [|val vals IH]; intros e; simpl; [discriminate|].
  destruct (to_float val) as [v|].
  - destruct (convert_row to_float vals) as [e'|ws]; [|discriminate].
    intros H. inversion H; subst. apply IH. reflexivity.
  - intros H. inversion H. reflexivity.
Qed.

(** The rows are parsed exactly when they are all [ncols] wide and every
    field converts; the result holds the converted fields in place. *)
Lemma read_rows_inr ncols rows table :
  read_rows to_float ncols rows = inr table
  <-> uniform ncols rows = true /\ mapM (mapM to_float) rows = Some table.
Proof.
  revert table. induction rows as [|vals rows IH]; intros table; simpl.
  - split; [intros H; inversion H; auto | intros [_ H]; inversion H; auto].
  - destruct (length vals =? ncols)%nat; simpl; [|split; [discriminate|intros [? _]; discriminate]].
    destruct (convert_row to_float vals) as [e|r] eqn:Er.
    + destruct (mapM to_float vals) as [r|] eqn:Em; simpl.
      * apply convert_row_inr in Em. congruence.
      * split; [discriminate|intros [_ ?]; discriminate].
    + apply convert_row_inr in Er. rewrite Er. simpl.
      destruct (read_rows to_float ncols rows) as [e|rs].
      * destruct (mapM (mapM to_float) rows) as [rs|] eqn:Em; simpl.
        -- destruct (uniform ncols rows) eqn:Eu.
           ++ discriminate (proj2 (IH rs) (conj eq_refl eq_refl)).
           ++ split; [discriminate|intros [? _]; discriminate].
        -- split; [discriminate|intros [_ ?]; discriminate].
      * destruct (proj1 (IH rs) eq_refl) as [-> ->]. simpl.
        split; [intros H; inversion H; auto | intros [_ H]; inversion H; auto].
Qed.

(** Whatever goes wrong while reading rows is a [ValueError]. *)
Lemma read_rows_inl ncols rows e :
  read_rows to_float ncols rows = inl e -> is_ValueError e = true.
Proof.
  revert e. induction rows as [|vals rows IH]; intros e; simpl; [discriminate|].
  destruct (length vals =? ncols)%nat.
  - destruct (convert_row to_float vals) as [e'|r] eqn:Er.
    + intros H. inversion H; subst. eapply convert_row_inl, Er.
    + destruct (read_rows to_float ncols rows) as [e'|rs]; [|discriminate].
      intros H. inversion H; subst. apply IH. reflexivity.
  - intros H. inversion H. reflexivity.
Qed.

Lemma split_line_join row :
  clean_row row = true -> split_line (join SPACE row) = row.
Proof.
  destruct row as [|f fields]; [discriminate|]. unfold clean_row. intros H.
  unfold split_line.
  rewrite before_free
    by (apply free_of_join; [discriminate | apply clean_fields_free; auto]).
  destruct (join SPACE (f :: fields)) eqn:E.
  - exfalso. revert E. apply join_nonempty.
    simpl in H. apply andb_prop in H as [H _].
    apply clean_field_parts in H. tauto.
  - rewrite <- E. apply split_join, clean_fields_free; auto.
Qed.

Lemma clean_row_has_data row : clean_row row = true -> has_data row = true.
Proof. destruct row; [discriminate | reflexivity]. Qed.

(** The rows written into a file are the rows read back. *)
Lemma data_rows_table header rows :
  forallb one_line header = true ->
  forallb clean_row rows = true ->
  data_rows (length header) (table_text header rows) = rows.
Proof.
  intros Hh Hr. unfold data_rows, table_text.
  assert (Hlines : forall c, c = LF \/ c = CR ->
            forallb (free_of c) (header ++ map (join SPACE) rows) = true).
  { intros c Hc. rewrite forallb_app. apply andb_true_intro. split.
    - clear Hr. induction header as [|l header IH]; [reflexivity|].
      simpl in *. apply andb_prop in Hh as [Hl Hh].
      rewrite (IH Hh), andb_true_r.
      unfold one_line in Hl. apply andb_prop in Hl as [? ?].
      destruct Hc as [-> | ->]; assumption.
    - clear Hh. induction rows as [|row rows IH]; [reflexivity|].
      simpl in *. apply andb_prop in Hr as [Hrow Hr].
      rewrite (IH Hr), andb_true_r.
      destruct row as [|f fields]; [discriminate|]. unfold clean_row in Hrow.
      destruct Hc as [-> | ->]; (apply free_of_join; [discriminate|]);
        apply clean_fields_free; auto. }
  rewrite universal_newlines_id
    by (apply free_of_unlines; [discriminate | apply Hlines; auto]).
  rewrite readlines_unlines by (apply Hlines; auto).
  rewrite drop_app_length.
  clear Hh Hlines. induction rows as [|row rows IH]; [reflexivity|].
  simpl in *. apply andb_prop in Hr as [Hrow Hr].
  rewrite (split_line_join _ Hrow), (clean_row_has_data _ Hrow), (IH Hr).
  reflexivity.
Qed.

Lemma loadtxt_text_table header rows :
  forallb one_line header = true ->
  forallb clean_row rows = true ->
  loadtxt_text to_float (length header) (table_text header rows) =
    match read_rows to_float (first_width rows) rows with
    | inl e => inl e
    | inr table => inr (squeeze table (first_width rows))
    end.
Proof.
  intros Hh Hr. unfold loadtxt_text, read_table.
  rewrite (data_rows_table _ _ Hh Hr). reflexivity.
Qed.

Lemma uniform_first_width ncols row rows :
  uniform ncols (row :: rows) = true -> first_width (row :: rows) = ncols.
Proof.
  simpl. intros H. apply andb_prop in H as [H _].
  apply Nat.eqb_eq in H. exact H.
Qed.

(** A table of at least two rows and two columns keeps its shape. *)
Lemma loadtxt_text_matrix header rows ncols table :
  forallb one_line header = true ->
  forallb clean_row rows = true ->
  uniform ncols rows = true ->
  mapM (mapM to_float) rows = Some table ->
  2 <= length rows -> 2 <= ncols ->
  loadtxt_text to_float (length header) (table_text header rows)
    = inr (Matrix table ncols).
Proof.
  intros Hh Hr Hu Hm Hrows Hcols.
  rewrite (loadtxt_text_table _ _ Hh Hr).
  assert (Hw : first_width rows = ncols).
  { destruct rows; [simpl in Hrows; lia | eapply uniform_first_width, Hu]. }
  rewrite Hw, (proj2 (read_rows_inr ncols rows table) (conj Hu Hm)).
  apply length_mapM in Hm. unfold squeeze.
  destruct table as [|r1 [|r2 table]]; try (simpl in *; lia).
  destruct (Nat.eqb_spec ncols 1); [lia | reflexivity].
Qed.

(** A table whose rows differ in width, or that holds a field that does
    not convert, is refused with a [ValueError]. *)
Lemma loadtxt_text_refused header rows :
  forallb one_line header = true ->
  forallb clean_row rows = true ->
  uniform (first_width rows) rows = false \/ mapM (mapM to_float) rows = None ->
  exists msg,
    loadtxt_text to_float (length header) (table_text header rows)
      = inl (ValueError msg).
Proof.
  intros Hh Hr Hbad. rewrite (loadtxt_text_table _ _ Hh Hr).
  destruct (read_rows to_float (first_width rows) rows) as [e|table] eqn:E.
  - apply read_rows_inl in E. destruct e; try discriminate. eauto.
  - apply read_rows_inr in E as [Hu Hm]. destruct Hbad; congruence.
Qed.

Lemma loadtxt_text_empty skiprows :
  loadtxt_text to_float skiprows EmptyString = inr (Vector []).
Proof. destruct skiprows; reflexivity. Qed.

Lemma matrix_no_data skiprows text table ncols :
  loadtxt_text to_float skiprows text = inr (Matrix table ncols) ->
  no_data skiprows text = false.
Proof.
  unfold loadtxt_text, read_table, no_data.
  destruct (data_rows skiprows text); [discriminate | reflexivity].
Qed.

(** The converted table is as wide and as long as the text rows. *)
Lemma converted_widths ncols rows (table : list (list F)) :
  uniform ncols rows = true ->
  mapM (mapM to_float) rows = Some table ->
  Forall (fun r => length r = ncols) table.
Proof.
  intros Hu Hm. apply mapM_Some_1 in Hm.
  induction Hm as [|row r rows table Hrow _ IH]; constructor.
  - simpl in Hu. apply andb_prop in Hu as [Hu _].
    apply Nat.eqb_eq in Hu. apply length_mapM in Hrow. congruence.
  - apply IH. simpl in Hu. apply andb_prop in Hu as [_ Hu]. exact Hu.
Qed.

(** A column inside the width of a matrix exists and has one entry per
    row. *)
Lemma column_matrix (table : list (list F)) ncols k :
  Forall (fun r => length r = ncols) table -> k < ncols ->
  exists col, column (Matrix table ncols) k = inr col
              /\ length col = length table.
Proof.
  intros Hw Hk. unfold column.
  destruct (Nat.ltb_spec k ncols); [|lia].
  assert (Hsome : is_Some (mapM (fun r : list F => r !! k) table)).
  { apply mapM_is_Some. eapply Forall_impl; [exact Hw|].
    intros r Hr. simpl in *. apply lookup_lt_is_Some. lia. }
  destruct Hsome as [col Hcol]. rewrite Hcol.
  exists col. split; [reflexivity|]. symmetry. eapply length_mapM, Hcol.
Qed.

End WithFloat.
End NumpyFacts.

(** ** Running the script *)

Module ScriptFacts.
Import Script.

Section WithFloat.

Context {F : Type} (to_float : string -> option F) (env : environment).

Abbreviation cmdline M N r o := [SAVE_BB8 env; M; N; r; o].

(** With its four arguments present and a solver that ran to its end,
    [main] is the launch, the warning if there is one, and the rest. *)
Lemma run_exited script M N r o rest disk code out disk' :
  sys_argv env = script :: M :: N :: r :: o :: rest ->
  exec env (cmdline M N r o) disk = (Exited code out, disk') ->
  run to_float env disk =
    after_solver to_float env
      {| files := disk';
         trace := Spawn (cmdline M N r o) :: warning (cmdline M N r o) code out |}.
Proof.
  intros Hargv Hexec.
  unfold run, main, argv. rewrite Hargv. cbn [lookup list_lookup].
  unfold bind at 1 2 3 4 5. cbn [ret].
  unfold try_except, check_output. unfold bind at 1 2. cbn [log files trace app].
  rewrite Hexec. unfold warning.
  destruct (code =? 0)%Z; reflexivity.
Qed.

Lemma run_launch_failed script M N r o rest disk msg disk' :
  sys_argv env = script :: M :: N :: r :: o :: rest ->
  exec env (cmdline M N r o) disk = (LaunchFailed msg, disk') ->
  run to_float env disk =
    (inl (OSError msg), {| files := disk'; trace := [Spawn (cmdline M N r o)] |}).
Proof.
  intros Hargv Hexec.
  unfold run, main, argv. rewrite Hargv. cbn [lookup list_lookup].
  unfold bind at 1 2 3 4 5. cbn [ret].
  unfold try_except, check_output. unfold bind at 1 2. cbn [log files trace app].
  rewrite Hexec. reflexivity.
Qed.

Lemma run_missing_argument disk :
  length (sys_argv env) < 5 ->
  run to_float env disk = (inl (IndexError "list index out of range"),
                           {| files := disk; trace := [] |}).
Proof.
  intros Hlen. unfold run, main, argv.
  destruct (sys_argv env) as [|script [|M [|N [|r [|o rest]]]]];
    try reflexivity.
  simpl in Hlen. lia.
Qed.

(** Unfolding the actions of [after_solver] on a state. *)
Ltac step :=
  cbv beta iota delta
    [after_solver is_file read_text loadtxt subplots pcolormesh
     plot show savefig lift log bind ret raise files trace negb].

Lemma after_solver_no_grid st :
  files st !! CONFIG_SPACE_FILE env = None ->
  after_solver to_float env st =
    (inl (Exception ["Config space file not found: "; CONFIG_SPACE_FILE env]),
     {| files := files st; trace := trace st ++ [IsFile (CONFIG_SPACE_FILE env)] |}).
Proof.
  destruct st as [fs t]. cbn [files trace]. intros Hg.
  step. rewrite Hg. reflexivity.
Qed.

Lemma after_solver_no_path st g :
  files st !! CONFIG_SPACE_FILE env = Some g ->
  files st !! SOLUTION_PATH_FILE env = None ->
  after_solver to_float env st =
    (inl (Exception ["Solution path file found: "; SOLUTION_PATH_FILE env]),
     {| files := files st;
        trace := trace st ++ [IsFile (CONFIG_SPACE_FILE env);
                              IsFile (SOLUTION_PATH_FILE env)] |}).
Proof.
  destruct st as [fs t]. cbn [files trace]. intros Hg Hp.
  step. rewrite Hg. step. rewrite Hp.
  rewrite <- app_assoc. reflexivity.
Qed.

Lemma agree_refl fs : agree env fs fs.
Proof. split; reflexivity. Qed.

Lemma local_ret {A} (x : A) : local (F:=F) env (ret x).
Proof.
  intros fs1 fs2 t1 t2 _. exists (inr x), [].
  unfold ret. rewrite !app_nil_r. auto.
Qed.

Lemma local_raise {A} e : local (F:=F) env (@raise F A e).
Proof.
  intros fs1 fs2 t1 t2 _. exists (inl e), [].
  unfold raise. rewrite !app_nil_r. auto.
Qed.

Lemma local_log e : is_launch e = false -> local (F:=F) env (log e).
Proof.
  intros He fs1 fs2 t1 t2 _. exists (inr tt), [e].
  cbn [existsb]. rewrite He. auto.
Qed.

Lemma local_lift {A} (r : exception + A) : local (F:=F) env (lift r).
Proof. destruct r; [apply local_raise | apply local_ret]. Qed.

Lemma local_bind {A B} (m : action F A) (k : A -> action F B) :
  local (F:=F) env m -> (forall a, local (F:=F) env (k a)) -> local (F:=F) env (bind m k).
Proof.
  intros Hm Hk fs1 fs2 t1 t2 Hfs.
  destruct (Hm fs1 fs2 t1 t2 Hfs) as (r & evs & Hq & E1 & E2).
  unfold bind. rewrite E1, E2. destruct r as [e|a].
  - exists (inl e), evs. auto.
  - destruct (Hk a fs1 fs2 (t1 ++ evs) (t2 ++ evs) Hfs)
      as (r' & evs' & Hq' & E1' & E2').
    exists r', (evs ++ evs').
    rewrite E1', E2', !app_assoc, existsb_app, Hq, Hq'. auto.
Qed.

Lemma local_is_file path :
  path = CONFIG_SPACE_FILE env \/ path = SOLUTION_PATH_FILE env ->
  local (F:=F) env (is_file path).
Proof.
  intros Hpath fs1 fs2 t1 t2 [Hg Hp].
  assert (E : fs1 !! path = fs2 !! path) by (destruct Hpath; subst; assumption).
  unfold is_file, bind, log. cbn [files trace]. rewrite E.
  destruct (fs2 !! path); eexists _, [IsFile path]; auto.
Qed.

Lemma local_read_text path :
  path = CONFIG_SPACE_FILE env \/ path = SOLUTION_PATH_FILE env ->
  local (F:=F) env (read_text path).
Proof.
  intros Hpath fs1 fs2 t1 t2 [Hg Hp].
  assert (E : fs1 !! path = fs2 !! path) by (destruct Hpath; subst; assumption).
  unfold read_text, bind, log. cbn [files trace]. rewrite E.
  destruct (fs2 !! path); eexists _, [Open path]; auto.
Qed.

Create HintDb actions.
#[local] Hint Resolve local_ret local_raise local_lift : actions.
#[local] Hint Extern 1 (local _ (log _)) => apply local_log; reflexivity : actions.

Lemma local_loadtxt path skiprows :
  path = CONFIG_SPACE_FILE env \/ path = SOLUTION_PATH_FILE env ->
  local (F:=F) env (loadtxt to_float path skiprows).
Proof.
  intros Hpath. unfold loadtxt.
  apply local_bind; [apply local_read_text, Hpath | intros text].
  apply local_bind; [auto with actions | intros a].
  apply local_bind; [| intros _; auto with actions].
  destruct (Numpy.no_data skiprows text); auto with actions.
Qed.

Lemma local_draw G P : local (F:=F) env (draw G P).
Proof.
  unfold draw, subplots, pcolormesh, plot, show, savefig.
  apply local_bind; [auto with actions | intros _].
  apply local_bind; [destruct G; auto with actions | intros _].
  apply local_bind;
    [| intros _; apply local_bind; [|intros _]; auto with actions].
  destruct (negb _); [| auto with actions].
  apply local_bind; [auto with actions | intros x].
  apply local_bind; [auto with actions | intros y].
  auto with actions.
Qed.

Lemma after_solver_draw :
  after_solver to_float env =
    bind (is_file (CONFIG_SPACE_FILE env)) (fun found =>
      if negb found then
        raise (Exception ["Config space file not found: "; CONFIG_SPACE_FILE env])
      else
      bind (is_file (SOLUTION_PATH_FILE env)) (fun found =>
      if negb found then
        raise (Exception ["Solution path file found: "; SOLUTION_PATH_FILE env])
      else
      bind (loadtxt to_float (CONFIG_SPACE_FILE env) 3) (fun config_space =>
      bind (loadtxt to_float (SOLUTION_PATH_FILE env) 0) (fun solution_path =>
      draw config_space solution_path)))).
Proof. reflexivity. Qed.

Ltac load :=
  cbv beta iota delta
    [is_file read_text loadtxt lift log bind ret raise files trace negb].

Lemma after_solver_bad_grid fs t g p e :
  fs !! CONFIG_SPACE_FILE env = Some g ->
  fs !! SOLUTION_PATH_FILE env = Some p ->
  Numpy.loadtxt_text to_float 3 g = inl e ->
  after_solver to_float env {| files := fs; trace := t |} =
    (inl e,
     {| files := fs;
        trace := t ++ [IsFile (CONFIG_SPACE_FILE env);
                       IsFile (SOLUTION_PATH_FILE env);
                       Open (CONFIG_SPACE_FILE env)] |}).
Proof.
  intros Hg Hp HG. rewrite after_solver_draw.
  load. rewrite Hg. load. rewrite Hp. load. rewrite Hg. load. rewrite HG.
  rewrite <- !app_assoc. reflexivity.
Qed.

Lemma after_solver_bad_path fs t g p G e :
  fs !! CONFIG_SPACE_FILE env = Some g ->
  fs !! SOLUTION_PATH_FILE env = Some p ->
  Numpy.loadtxt_text to_float 3 g = inr G ->
  Numpy.loadtxt_text to_float 0 p = inl e ->
  after_solver to_float env {| files := fs; trace := t |} =
    (inl e,
     {| files := fs;
        trace := t ++ [IsFile (CONFIG_SPACE_FILE env);
                       IsFile (SOLUTION_PATH_FILE env);
                       Open (CONFIG_SPACE_FILE env)]
                   ++ no_data_warning 3 g
                   ++ [Open (SOLUTION_PATH_FILE env)] |}).
Proof.
  intros Hg Hp HG HP. rewrite after_solver_draw.
  load. rewrite Hg. load. rewrite Hp. load. rewrite Hg. load. rewrite HG.
  unfold no_data_warning.
  destruct (Numpy.no_data 3 g); load; rewrite Hp; load; rewrite HP;
    rewrite <- !app_assoc; reflexivity.
Qed.

Lemma after_solver_loaded fs t g p G P :
  fs !! CONFIG_SPACE_FILE env = Some g ->
  fs !! SOLUTION_PATH_FILE env = Some p ->
  Numpy.loadtxt_text to_float 3 g = inr G ->
  Numpy.loadtxt_text to_float 0 p = inr P ->
  after_solver to_float env {| files := fs; trace := t |} =
    draw G P
      {| files := fs;
         trace := t ++ [IsFile (CONFIG_SPACE_FILE env);
                        IsFile (SOLUTION_PATH_FILE env);
                        Open (CONFIG_SPACE_FILE env)]
                    ++ no_data_warning 3 g
                    ++ [Open (SOLUTION_PATH_FILE env)]
                    ++ no_data_warning 0 p |}.
Proof.
  intros Hg Hp HG HP. rewrite after_solver_draw.
  load. rewrite Hg. load. rewrite Hp. load. rewrite Hg. load. rewrite HG.
  unfold no_data_warning.
  destruct (Numpy.no_data 3 g); load; rewrite Hp; load; rewrite HP;
    destruct (Numpy.no_data 0 p); load;
    rewrite <- ?app_assoc; try rewrite app_nil_r; reflexivity.
Qed.

Ltac paint :=
  cbv beta iota delta
    [draw subplots pcolormesh plot show savefig lift log bind ret raise
     files trace].

Lemma draw_without_path fs t rows ncols (P : Numpy.ndarray F) :
  Numpy.size P = 0 ->
  draw (Numpy.Matrix rows ncols) P {| files := fs; trace := t |} =
    (inr tt,
     {| files := fs;
        trace := t ++ [Subplots; Pcolormesh rows "jet"; Show;
                       Savefig "solution.png"] |}).
Proof.
  intros HP. paint. rewrite HP. cbn [Nat.eqb negb]. paint.
  rewrite <- !app_assoc. reflexivity.
Qed.

Lemma draw_with_path fs t rows ncols (P : Numpy.ndarray F) x y :
  Numpy.size P <> 0 ->
  Numpy.column P 0 = inr x ->
  Numpy.column P 1 = inr y ->
  draw (Numpy.Matrix rows ncols) P {| files := fs; trace := t |} =
    (inr tt,
     {| files := fs;
        trace := t ++ [Subplots; Pcolormesh rows "jet"; Plot x y "5" "cyan";
                       Show; Savefig "solution.png"] |}).
Proof.
  intros HP Hx Hy. paint.
  destruct (Nat.eqb_spec (Numpy.size P) 0) as [|_]; [contradiction|].
  cbn [negb]. rewrite Hx, Hy. rewrite <- !app_assoc. reflexivity.
Qed.

Lemma draw_index_error fs t rows ncols (P : Numpy.ndarray F) e :
  Numpy.size P <> 0 ->
  Numpy.column P 0 = inl e ->
  draw (Numpy.Matrix rows ncols) P {| files := fs; trace := t |} =
    (inl e,
     {| files := fs; trace := t ++ [Subplots; Pcolormesh rows "jet"] |}).
Proof.
  intros HP Hx. paint.
  destruct (Nat.eqb_spec (Numpy.size P) 0) as [|_]; [contradiction|].
  cbn [negb]. rewrite Hx. rewrite <- !app_assoc. reflexivity.
Qed.

Lemma local_after_solver : local (F:=F) env (after_solver to_float env).
Proof.
  rewrite after_solver_draw.
  apply local_bind; [apply local_is_file; auto | intros found].
  destruct (negb found); [apply local_raise|].
  apply local_bind; [apply local_is_file; auto | intros found'].
  destruct (negb found'); [apply local_raise|].
  apply local_bind; [apply local_loadtxt; auto | intros G].
  apply local_bind; [apply local_loadtxt; auto | intros P].
  apply local_draw.
Qed.

(** The events of [after_solver] are appended to the trace, and none of
    them starts a process or prints. *)
Lemma after_solver_trace fs t :
  exists r evs,
    existsb is_launch evs = false
    /\ after_solver to_float env {| files := fs; trace := t |} =
         (r, {| files := fs; trace := t ++ evs |}).
Proof.
  destruct (local_after_solver fs fs t [] (agree_refl fs)) as (r & evs & Hq & E & _).
  eauto.
Qed.

(** Whatever the disk holds, the first thing [after_solver] does is to
    look for the grid file. *)
Lemma after_solver_probes_first fs t :
  exists r evs,
    after_solver to_float env {| files := fs; trace := t |} =
      (r, {| files := fs; trace := t ++ IsFile (CONFIG_SPACE_FILE env) :: evs |}).
Proof.
  destruct (fs !! CONFIG_SPACE_FILE env) as [g|] eqn:Hg.
  2: { eexists _, []. apply (after_solver_no_grid {| files := fs; trace := t |}), Hg. }
  destruct (fs !! SOLUTION_PATH_FILE env) as [p|] eqn:Hp.
  2: { eexists _, [_].
       apply (after_solver_no_path {| files := fs; trace := t |} g); assumption. }
  destruct (Numpy.loadtxt_text to_float 3 g) as [e|G] eqn:HG.
  { eexists _, [_; _]. eapply after_solver_bad_grid; eassumption. }
  destruct (Numpy.loadtxt_text to_float 0 p) as [e|P] eqn:HP.
  { eexists _, _. erewrite after_solver_bad_path by eassumption.
    cbn [app]. reflexivity. }
  rewrite (after_solver_loaded _ _ _ _ _ _ Hg Hp HG HP).
  match goal with |- context [draw G P {| files := fs; trace := ?t' |}] =>
    destruct (local_draw G P fs fs t' [] (agree_refl fs)) as (r & evs & _ & E & _)
  end.
  rewrite E. eexists _, _. rewrite <- app_assoc. cbn [app]. reflexivity.
Qed.

(** The drawing always opens the figure first, and with a grid of two
    dimensions the heat map comes next. *)
Lemma draw_opens_figure fs t G (P : Numpy.ndarray F) :
  exists r evs,
    draw G P {| files := fs; trace := t |} =
      (r, {| files := fs; trace := t ++ Subplots :: evs |}).
Proof.
  paint.
  destruct G; try (eexists _, []; reflexivity).
  destruct (negb _); [|eexists _, _; rewrite <- !app_assoc; reflexivity].
  destruct (Numpy.column P 0); [eexists _, _; rewrite <- !app_assoc; reflexivity|].
  destruct (Numpy.column P 1); eexists _, _; rewrite <- !app_assoc; reflexivity.
Qed.

Lemma draw_paints_grid fs t rows ncols (P : Numpy.ndarray F) :
  exists r evs,
    draw (Numpy.Matrix rows ncols) P {| files := fs; trace := t |} =
      (r, {| files := fs;
             trace := t ++ Subplots :: Pcolormesh rows "jet" :: evs |}).
Proof.
  paint.
  destruct (negb _); [|eexists _, _; rewrite <- !app_assoc; reflexivity].
  destruct (Numpy.column P 0); [eexists _, _; rewrite <- !app_assoc; reflexivity|].
  destruct (Numpy.column P 1); eexists _, _; rewrite <- !app_assoc; reflexivity.
Qed.

(** A run that finds a grid of two dimensions and a path with its two
    columns: every step of it. *)
Lemma run_with_path script M N r o rest disk code out disk' g p G ncols P x y :
  sys_argv env = script :: M :: N :: r :: o :: rest ->
  exec env (cmdline M N r o) disk = (Exited code out, disk') ->
  disk' !! CONFIG_SPACE_FILE env = Some g ->
  disk' !! SOLUTION_PATH_FILE env = Some p ->
  Numpy.loadtxt_text to_float 3 g = inr (Numpy.Matrix G ncols) ->
  Numpy.loadtxt_text to_float 0 p = inr P ->
  Numpy.size P <> 0 ->
  Numpy.column P 0 = inr x ->
  Numpy.column P 1 = inr y ->
  run to_float env disk =
    (inr tt,
     {| files := disk';
        trace := Spawn (cmdline M N r o) :: warning (cmdline M N r o) code out
                 ++ [IsFile (CONFIG_SPACE_FILE env);
                     IsFile (SOLUTION_PATH_FILE env);
                     Open (CONFIG_SPACE_FILE env);
                     Open (SOLUTION_PATH_FILE env);
                     Subplots; Pcolormesh G "jet"; Plot x y "5" "cyan";
                     Show; Savefig "solution.png"] |}).
Proof.
  intros Hargv Hexec Hg Hp HG HP Hsize Hx Hy.
  rewrite (run_exited _ _ _ _ _ _ _ _ _ _ Hargv Hexec).
  rewrite (after_solver_loaded _ _ _ _ _ _ Hg Hp HG HP).
  rewrite (draw_with_path _ _ _ _ _ _ _ Hsize Hx Hy).
  unfold no_data_warning. rewrite (NumpyFacts.matrix_no_data _ _ _ _ _ HG).
  assert (Hdata : Numpy.no_data 0 p = false).
  { unfold Numpy.no_data. unfold Numpy.loadtxt_text, Numpy.read_table in HP.
    destruct (Numpy.data_rows 0 p); [|reflexivity].
    simpl in HP. inversion HP; subst. contradiction Hsize. reflexivity. }
  rewrite Hdata. cbn [app]. rewrite <- !app_assoc. reflexivity.
Qed.

(** A run that finds a grid of two dimensions and an empty path file. *)
Lemma run_with_empty_path script M N r o rest disk code out disk' g G ncols :
  sys_argv env = script :: M :: N :: r :: o :: rest ->
  exec env (cmdline M N r o) disk = (Exited code out, disk') ->
  disk' !! CONFIG_SPACE_FILE env = Some g ->
  disk' !! SOLUTION_PATH_FILE env = Some EmptyString ->
  Numpy.loadtxt_text to_float 3 g = inr (Numpy.Matrix G ncols) ->
  run to_float env disk =
    (inr tt,
     {| files := disk';
        trace := Spawn (cmdline M N r o) :: warning (cmdline M N r o) code out
                 ++ [IsFile (CONFIG_SPACE_FILE env);
                     IsFile (SOLUTION_PATH_FILE env);
                     Open (CONFIG_SPACE_FILE env);
                     Open (SOLUTION_PATH_FILE env);
                     Warn "loadtxt: input contained no data";
                     Subplots; Pcolormesh G "jet";
                     Show; Savefig "solution.png"] |}).
Proof.
  intros Hargv Hexec Hg Hp HG.
  rewrite (run_exited _ _ _ _ _ _ _ _ _ _ Hargv Hexec).
  rewrite (after_solver_loaded _ _ _ _ _ _ Hg Hp HG
             (NumpyFacts.loadtxt_text_empty to_float 0)).
  rewrite draw_without_path by reflexivity.
  unfold no_data_warning. rewrite (NumpyFacts.matrix_no_data _ _ _ _ _ HG).
  cbn [app Numpy.no_data]. rewrite <- !app_assoc. reflexivity.
Qed.

End WithFloat.

Lemma after_solver_same_paths {F} (to_float : string -> option F) env1 env2 :
  script_parent env1 = script_parent env2 ->
  after_solver to_float env1 = after_solver to_float env2.
Proof.
  unfold after_solver, CONFIG_SPACE_FILE, SOLUTION_PATH_FILE, _OUTPUT_DIR,
    _PROJECT_DIR.
  intros ->. reflexivity.
Qed.

End ScriptFacts.

(** * The statements of the specification, one by one *)

Import Script ScriptFacts.

(** ** C1 *)

(** A solver that ran to its end with a code other than zero costs a
    warning and no more: the run prints the command, the code and the
    captured output and goes on to look for the grid file. *)
Lemma nonzero_exit_is_a_warning {F} (to_float : string -> option F)
    env script M N r o rest disk code out disk' :
  sys_argv env = script :: M :: N :: r :: o :: rest ->
  exec env [SAVE_BB8 env; M; N; r; o] disk = (Exited code out, disk') ->
  code <> 0%Z ->
  exists evs,
    effects to_float env disk =
      Spawn [SAVE_BB8 env; M; N; r; o]
        :: Print [PStr "WARNING: running save-bb8 had issues:"; PStr Text.NL;
                  PStr "cmd:"; PList [SAVE_BB8 env; M; N; r; o]; PStr Text.NL;
                  PStr "returncode:"; PInt code; PStr Text.NL;
                  PStr "output:"; PStr out]
        :: IsFile (CONFIG_SPACE_FILE env) :: evs.
Proof.
  intros Hargv Hexec Hcode. unfold effects.
  rewrite (run_exited to_float env _ _ _ _ _ _ _ _ _ _ Hargv Hexec).
  match goal with |- context [after_solver _ _ {| files := ?fs; trace := ?t |}] =>
    destruct (after_solver_probes_first to_float env fs t) as (res & evs & E)
  end.
  rewrite E. exists evs. unfold warning.
  destruct (Z.eqb_spec code 0); [contradiction | reflexivity].
Qed.

(** C1 at a path file of one line.  The solver exits with code 1 and both
    files are there and well formed, the path file holding the single line
    [1 1]: the warning is printed and the files are read, but the run ends
    in an [IndexError] and no figure is saved. *)
Theorem nonzero_exit_one_line_path_no_image :
  outcome Decimal.to_float (Sample.env ["5"; "5"; "1"; "maze"] Sample.failed)
    (Sample.both (Text.table_text Sample.header Sample.grid5) (Text.unlines ["1 1"]))
  = inl (IndexError "too many indices for array")
  /\ existsb is_image
       (effects Decimal.to_float (Sample.env ["5"; "5"; "1"; "maze"] Sample.failed)
          (Sample.both (Text.table_text Sample.header Sample.grid5)
             (Text.unlines ["1 1"])))
     = false
  /\ In (Print [PStr "WARNING: running save-bb8 had issues:"; PStr Text.NL;
                PStr "cmd:";
                PList ["/home/kb/shield/build/bin/save-bb8"; "5"; "5"; "1"; "maze"];
                PStr Text.NL; PStr "returncode:"; PInt 1; PStr Text.NL;
                PStr "output:"; PStr "no such obstacle layout"])
        (effects Decimal.to_float (Sample.env ["5"; "5"; "1"; "maze"] Sample.failed)
           (Sample.both (Text.table_text Sample.header Sample.grid5)
              (Text.unlines ["1 1"]))).
Proof.
  split; [reflexivity|]. split; [reflexivity|]. right. left. reflexivity.
Qed.

(** ** C2 *)

(** C2, as the script has it.  Nothing is validated: when the four
    arguments are there, whatever they hold, the first thing the run does
    is to start the solver on the command line made of the executable and
    the four arguments as given, and no other process is started later.
    The only failure ahead of the launch is the [IndexError] of a missing
    argument, and then nothing at all has happened. *)
Theorem solver_launched_without_validation {F} (to_float : string -> option F)
    env disk :
  match sys_argv env with
  | script :: M :: N :: r :: o :: rest =>
      exists evs,
        effects to_float env disk = Spawn [SAVE_BB8 env; M; N; r; o] :: evs
        /\ existsb is_spawn evs = false
  | _ =>
      outcome to_float env disk = inl (IndexError "list index out of range")
      /\ effects to_float env disk = []
  end.
Proof.
  unfold outcome, effects.
  destruct (sys_argv env) as [|script [|M [|N [|r [|o rest]]]]] eqn:Hargv;
    try (rewrite run_missing_argument by (rewrite Hargv; simpl; lia);
         split; reflexivity).
  destruct (exec env [SAVE_BB8 env; M; N; r; o] disk) as [[msg|code out] disk'] eqn:Hexec.
  - rewrite (run_launch_failed to_float env _ _ _ _ _ _ _ _ _ Hargv Hexec).
    exists []. split; reflexivity.
  - rewrite (run_exited to_float env _ _ _ _ _ _ _ _ _ _ Hargv Hexec).
    match goal with |- context [after_solver _ _ {| files := ?fs; trace := ?t |}] =>
      destruct (after_solver_trace to_float env fs t) as (res & evs & Hq & E)
    end.
    rewrite E. cbn [snd trace app]. eexists. split; [reflexivity|].
    rewrite existsb_app. apply orb_false_intro.
    + unfold warning. destruct (code =? 0)%Z; reflexivity.
    + clear E. induction evs as [|e evs IH]; [reflexivity|].
      cbn [existsb] in *. apply orb_false_elim in Hq as [He Hq].
      rewrite (IH Hq), orb_false_r. destruct e; try reflexivity; discriminate.
Qed.

(** C2 as stated fails: with a first argument that is no number, no
    columns and a negative radius, the solver is started on exactly these
    arguments and the run goes on to its end. *)
Lemma invalid_parameters_reach_the_solver :
  Spec.invalid_parameters "abc" "0" "-1" = true
  /\ In (Spawn ["/home/kb/shield/build/bin/save-bb8"; "abc"; "0"; "-1"; "maze"])
        (effects Decimal.to_float (Sample.env ["abc"; "0"; "-1"; "maze"] Sample.ok)
           (Sample.both (Text.table_text Sample.header Sample.grid5) EmptyString))
  /\ outcome Decimal.to_float (Sample.env ["abc"; "0"; "-1"; "maze"] Sample.ok)
       (Sample.both (Text.table_text Sample.header Sample.grid5) EmptyString) = inr tt.
Proof.
  split; [reflexivity|]. split; [left|]; reflexivity.
Qed.

(** ** C3 *)

(** C3, as the script has it.  The grid file is read after exactly three
    header lines, whatever [rows] and [cols] were given on the command
    line.  Data lines of one common width of at least two fields, at least
    two of them, all fields numeric, give the array of that many rows and
    columns, and that array is what the heat map shows.  If a data line is
    not as wide as the first one, or a field is not numeric, the run ends
    in a [ValueError] before anything is drawn. *)
Theorem grid_file_parsing {F} (to_float : string -> option F)
    env script M N r o rest disk code out disk' header rows p :
  sys_argv env = script :: M :: N :: r :: o :: rest ->
  exec env [SAVE_BB8 env; M; N; r; o] disk = (Exited code out, disk') ->
  length header = 3 ->
  forallb Text.one_line header = true ->
  forallb Text.clean_row rows = true ->
  disk' !! CONFIG_SPACE_FILE env = Some (Text.table_text header rows) ->
  disk' !! SOLUTION_PATH_FILE env = Some p ->
  (forall ncols table P,
      Numpy.uniform ncols rows = true ->
      mapM (mapM to_float) rows = Some table ->
      2 <= length rows -> 2 <= ncols ->
      Numpy.loadtxt_text to_float 0 p = inr P ->
      Numpy.loadtxt_text to_float 3 (Text.table_text header rows)
        = inr (Numpy.Matrix table ncols)
      /\ Numpy.shape (Numpy.Matrix table ncols) = [length rows; ncols]
      /\ In (Pcolormesh table "jet") (effects to_float env disk))
  /\ (Numpy.uniform (Numpy.first_width rows) rows = false
      \/ mapM (mapM to_float) rows = None ->
      exists msg,
        outcome to_float env disk = inl (ValueError msg)
        /\ existsb is_render (effects to_float env disk) = false).
Proof.
  intros Hargv Hexec Hlen Hhead Hclean Hg Hp. split.
  - intros ncols table P Hu Hm Hrows Hcols HP.
    assert (HG : Numpy.loadtxt_text to_float 3 (Text.table_text header rows)
                 = inr (Numpy.Matrix table ncols)).
    { pose proof (NumpyFacts.loadtxt_text_matrix to_float header rows ncols
                    table Hhead Hclean Hu Hm Hrows Hcols) as H.
      rewrite Hlen in H. exact H. }
    split; [exact HG|]. split.
    + cbn [Numpy.shape]. rewrite (length_mapM _ _ _ Hm). reflexivity.
    + unfold effects.
      rewrite (run_exited to_float env _ _ _ _ _ _ _ _ _ _ Hargv Hexec).
      rewrite (after_solver_loaded to_float env _ _ _ _ _ _ Hg Hp HG HP).
      match goal with |- context [draw _ _ {| files := ?fs; trace := ?t |}] =>
        destruct (draw_paints_grid fs t table ncols P) as (res & evs & E)
      end.
      rewrite E. cbn [snd trace].
      apply in_or_app. right. right. left. reflexivity.
  - intros Hbad.
    pose proof (NumpyFacts.loadtxt_text_refused to_float header rows
                  Hhead Hclean Hbad) as [msg HG].
    rewrite Hlen in HG. exists msg. unfold outcome, effects.
    rewrite (run_exited to_float env _ _ _ _ _ _ _ _ _ _ Hargv Hexec).
    rewrite (after_solver_bad_grid to_float env _ _ _ _ _ Hg Hp HG).
    cbn [fst snd trace]. split; [reflexivity|].
    unfold warning. destruct (code =? 0)%Z; reflexivity.
Qed.

Lemma grid_file_parsing_witness :
  In (Pcolormesh Sample.grid5_values "jet")
     (effects Decimal.to_float (Sample.env ["5"; "5"; "1"; "maze"] Sample.ok)
        (Sample.both (Text.table_text Sample.header Sample.grid5) EmptyString))
  /\ exists msg,
       outcome Decimal.to_float (Sample.env ["2"; "2"; "1"; "maze"] Sample.ok)
         (Sample.both (Text.table_text Sample.header [["0"; "1"]; ["1"; "free"]]) EmptyString)
       = inl (ValueError msg).
Proof.
  split.
  - destruct (grid_file_parsing Decimal.to_float
                (Sample.env ["5"; "5"; "1"; "maze"] Sample.ok)
                "run-save-bb8.py" "5" "5" "1" "maze" []
                (Sample.both (Text.table_text Sample.header Sample.grid5) EmptyString)
                0 "path found"
                (Sample.both (Text.table_text Sample.header Sample.grid5) EmptyString)
                Sample.header Sample.grid5 EmptyString
                eq_refl eq_refl eq_refl eq_refl eq_refl eq_refl eq_refl)
      as [Hshape _].
    destruct (Hshape 5 Sample.grid5_values (Numpy.Vector [])
                eq_refl eq_refl) as (_ & _ & Hdrawn);
      [simpl; lia | lia | reflexivity | exact Hdrawn].
  - destruct (grid_file_parsing Decimal.to_float
                (Sample.env ["2"; "2"; "1"; "maze"] Sample.ok)
                "run-save-bb8.py" "2" "2" "1" "maze" []
                (Sample.both (Text.table_text Sample.header [["0"; "1"]; ["1"; "free"]]) EmptyString)
                0 "path found"
                (Sample.both (Text.table_text Sample.header [["0"; "1"]; ["1"; "free"]]) EmptyString)
                Sample.header [["0"; "1"]; ["1"; "free"]] EmptyString
                eq_refl eq_refl eq_refl eq_refl eq_refl eq_refl eq_refl)
      as [_ Hrefused].
    destruct (Hrefused (or_intror eq_refl)) as (msg & Hout & _).
    exists msg. exact Hout.
Defined.

(** C3 as stated fails: [rows] and [cols] are given as 5, the grid file
    has two data lines of three fields, and the run reads it as an array of
    two rows and three columns, draws it and ends without exception. *)
Lemma undeclared_grid_shape_is_accepted :
  Numpy.loadtxt_text Decimal.to_float 3
    (Text.table_text Sample.header [["0"; "1"; "0"]; ["1"; "0"; "1"]])
  = inr (Numpy.Matrix
           [[Decimal.of_Z 0; Decimal.of_Z 1; Decimal.of_Z 0];
            [Decimal.of_Z 1; Decimal.of_Z 0; Decimal.of_Z 1]] 3)
  /\ outcome Decimal.to_float (Sample.env ["5"; "5"; "1"; "maze"] Sample.ok)
       (Sample.both
          (Text.table_text Sample.header [["0"; "1"; "0"]; ["1"; "0"; "1"]]) EmptyString)
     = inr tt
  /\ In (Pcolormesh
           [[Decimal.of_Z 0; Decimal.of_Z 1; Decimal.of_Z 0];
            [Decimal.of_Z 1; Decimal.of_Z 0; Decimal.of_Z 1]] "jet")
        (effects Decimal.to_float (Sample.env ["5"; "5"; "1"; "maze"] Sample.ok)
           (Sample.both
              (Text.table_text Sample.header [["0"; "1"; "0"]; ["1"; "0"; "1"]]) EmptyString)).
Proof.
  split; [reflexivity|]. split; [reflexivity|].
  vm_compute. tauto.
Qed.

(** ** C4 *)

(** C4.  When the solver has run to its end and the grid file is not on
    the disk it leaves, [main] raises the exception that names the grid
    file, [Exception("Config space file not found: ", CONFIG_SPACE_FILE)].
    The trace then ends with the probe for that file: no file is opened and
    nothing is drawn. *)
Theorem missing_grid_file_aborts {F} (to_float : string -> option F)
    env script M N r o rest disk code out disk' :
  sys_argv env = script :: M :: N :: r :: o :: rest ->
  exec env [SAVE_BB8 env; M; N; r; o] disk = (Exited code out, disk') ->
  disk' !! CONFIG_SPACE_FILE env = None ->
  outcome to_float env disk =
    inl (Exception ["Config space file not found: "; CONFIG_SPACE_FILE env])
  /\ effects to_float env disk =
       Spawn [SAVE_BB8 env; M; N; r; o]
         :: warning [SAVE_BB8 env; M; N; r; o] code out
         ++ [IsFile (CONFIG_SPACE_FILE env)]
  /\ existsb (fun e => is_parse e || is_render e) (effects to_float env disk) = false.
Proof.
  intros Hargv Hexec Hgrid. unfold outcome, effects.
  rewrite (run_exited to_float env _ _ _ _ _ _ _ _ _ _ Hargv Hexec).
  rewrite after_solver_no_grid by exact Hgrid.
  cbn [fst snd files trace app]. repeat split.
  unfold warning. destruct (code =? 0)%Z; reflexivity.
Qed.

Lemma missing_grid_file_aborts_witness :
  outcome Decimal.to_float (Sample.env ["5"; "5"; "1"; "maze"] Sample.failed)
    (Sample.only_path "1 1") =
  inl (Exception ["Config space file not found: "; Sample.grid_path]).
Proof.
  apply (missing_grid_file_aborts Decimal.to_float
           (Sample.env ["5"; "5"; "1"; "maze"] Sample.failed)
           "run-save-bb8.py" "5" "5" "1" "maze" []
           (Sample.only_path "1 1") 1 "no such obstacle layout"
           (Sample.only_path "1 1")); reflexivity.
Defined.

(** ** C5 *)

(** C5.  An empty path file is read as an array without elements.  With a
    grid of two dimensions the run then opens the figure, draws the heat
    map, shows and saves it, and ends without exception; the line over the
    heat map is not drawn.  A path file that is not there is another
    matter: the run raises the exception that names the path file. *)
Theorem empty_path_file_is_no_path {F} (to_float : string -> option F)
    env script M N r o rest disk code out disk' g G ncols :
  sys_argv env = script :: M :: N :: r :: o :: rest ->
  exec env [SAVE_BB8 env; M; N; r; o] disk = (Exited code out, disk') ->
  disk' !! CONFIG_SPACE_FILE env = Some g ->
  Numpy.loadtxt_text to_float 3 g = inr (Numpy.Matrix G ncols) ->
  Numpy.loadtxt_text to_float 0 EmptyString = inr (Numpy.Vector [])
  /\ (disk' !! SOLUTION_PATH_FILE env = Some EmptyString ->
      outcome to_float env disk = inr tt
      /\ effects to_float env disk =
           Spawn [SAVE_BB8 env; M; N; r; o]
             :: warning [SAVE_BB8 env; M; N; r; o] code out
             ++ [IsFile (CONFIG_SPACE_FILE env);
                 IsFile (SOLUTION_PATH_FILE env);
                 Open (CONFIG_SPACE_FILE env);
                 Open (SOLUTION_PATH_FILE env);
                 Warn "loadtxt: input contained no data";
                 Subplots; Pcolormesh G "jet";
                 Show; Savefig "solution.png"]
      /\ existsb is_overlay (effects to_float env disk) = false)
  /\ (disk' !! SOLUTION_PATH_FILE env = None ->
      outcome to_float env disk =
        inl (Exception ["Solution path file found: "; SOLUTION_PATH_FILE env])
      /\ existsb (fun e => is_parse e || is_render e) (effects to_float env disk)
         = false).
Proof.
  intros Hargv Hexec Hg HG.
  split; [apply NumpyFacts.loadtxt_text_empty|]. split; intros Hp.
  - unfold outcome, effects.
    rewrite (run_with_empty_path to_float env _ _ _ _ _ _ _ _ _ _ _ _ _
               Hargv Hexec Hg Hp HG).
    cbn [fst snd trace]. repeat split.
    unfold warning. destruct (code =? 0)%Z; reflexivity.
  - unfold outcome, effects.
    rewrite (run_exited to_float env _ _ _ _ _ _ _ _ _ _ Hargv Hexec).
    rewrite (after_solver_no_path to_float env _ g) by assumption.
    cbn [fst snd trace]. split; [reflexivity|].
    unfold warning. destruct (code =? 0)%Z; reflexivity.
Qed.

Lemma empty_path_file_is_no_path_witness :
  (outcome Decimal.to_float (Sample.env ["5"; "5"; "1"; "maze"] Sample.ok)
     (Sample.both (Text.table_text Sample.header Sample.grid5) EmptyString) = inr tt
   /\ existsb is_overlay
        (effects Decimal.to_float (Sample.env ["5"; "5"; "1"; "maze"] Sample.ok)
           (Sample.both (Text.table_text Sample.header Sample.grid5) EmptyString)) = false)
  /\ outcome Decimal.to_float (Sample.env ["5"; "5"; "1"; "maze"] Sample.ok)
       (Sample.only_grid (Text.table_text Sample.header Sample.grid5))
     = inl (Exception ["Solution path file found: "; Sample.path_path]).
Proof.
  split.
  - destruct (empty_path_file_is_no_path Decimal.to_float
                (Sample.env ["5"; "5"; "1"; "maze"] Sample.ok)
                "run-save-bb8.py" "5" "5" "1" "maze" []
                (Sample.both (Text.table_text Sample.header Sample.grid5) EmptyString)
                0 "path found"
                (Sample.both (Text.table_text Sample.header Sample.grid5) EmptyString)
                (Text.table_text Sample.header Sample.grid5)
                Sample.grid5_values 5 eq_refl eq_refl eq_refl eq_refl) as (_ & Hempty & _).
    destruct (Hempty eq_refl) as (Hout & _ & Hplot). split; assumption.
  - destruct (empty_path_file_is_no_path Decimal.to_float
                (Sample.env ["5"; "5"; "1"; "maze"] Sample.ok)
                "run-save-bb8.py" "5" "5" "1" "maze" []
                (Sample.only_grid (Text.table_text Sample.header Sample.grid5))
                0 "path found"
                (Sample.only_grid (Text.table_text Sample.header Sample.grid5))
                (Text.table_text Sample.header Sample.grid5)
                Sample.grid5_values 5 eq_refl eq_refl eq_refl eq_refl) as (_ & _ & Hmissing).
    destruct (Hmissing eq_refl) as (Hout & _). exact Hout.
Defined.

(** ** C6 *)

(** C6, as the script has it.  Reading the path file raises a
    [ValueError] when its lines do not all have as many fields as the
    first one.  When they do and every field is numeric, the file is read
    without exception whatever the common number of fields is, and the run
    goes on to open the figure. *)
Theorem path_file_parsing {F} (to_float : string -> option F)
    env script M N r o rest disk code out disk' g G rows :
  sys_argv env = script :: M :: N :: r :: o :: rest ->
  exec env [SAVE_BB8 env; M; N; r; o] disk = (Exited code out, disk') ->
  disk' !! CONFIG_SPACE_FILE env = Some g ->
  Numpy.loadtxt_text to_float 3 g = inr G ->
  forallb Text.clean_row rows = true ->
  disk' !! SOLUTION_PATH_FILE env = Some (Text.table_text [] rows) ->
  (Numpy.uniform (Numpy.first_width rows) rows = false ->
   exists msg,
     Numpy.loadtxt_text to_float 0 (Text.table_text [] rows) = inl (ValueError msg)
     /\ outcome to_float env disk = inl (ValueError msg)
     /\ existsb is_render (effects to_float env disk) = false)
  /\ (forall table,
        Numpy.uniform (Numpy.first_width rows) rows = true ->
        mapM (mapM to_float) rows = Some table ->
        Numpy.loadtxt_text to_float 0 (Text.table_text [] rows)
          = inr (Numpy.squeeze table (Numpy.first_width rows))
        /\ In Subplots (effects to_float env disk)).
Proof.
  intros Hargv Hexec Hg HG Hclean Hp. split.
  - intros Hragged.
    destruct (NumpyFacts.loadtxt_text_refused to_float [] rows eq_refl Hclean
                (or_introl Hragged)) as [msg HP].
    exists msg. split; [exact HP|]. unfold outcome, effects.
    rewrite (run_exited to_float env _ _ _ _ _ _ _ _ _ _ Hargv Hexec).
    rewrite (after_solver_bad_path to_float env _ _ _ _ _ _ Hg Hp HG HP).
    cbn [fst snd trace]. split; [reflexivity|].
    cbn [existsb is_render orb]. rewrite !existsb_app.
    unfold warning, no_data_warning.
    destruct (code =? 0)%Z, (Numpy.no_data 3 g); reflexivity.
  - intros table Hu Hm.
    assert (HP : Numpy.loadtxt_text to_float 0 (Text.table_text [] rows)
                 = inr (Numpy.squeeze table (Numpy.first_width rows))).
    { pose proof (NumpyFacts.loadtxt_text_table to_float [] rows eq_refl Hclean) as H.
      cbn [length] in H. rewrite H.
      rewrite (proj2 (NumpyFacts.read_rows_inr to_float _ rows table) (conj Hu Hm)).
      reflexivity. }
    split; [exact HP|]. unfold effects.
    rewrite (run_exited to_float env _ _ _ _ _ _ _ _ _ _ Hargv Hexec).
    rewrite (after_solver_loaded to_float env _ _ _ _ _ _ Hg Hp HG HP).
    match goal with |- context [draw ?G' ?P' {| files := ?fs; trace := ?t |}] =>
      destruct (draw_opens_figure fs t G' P') as (res & evs & E)
    end.
    rewrite E. cbn [snd trace]. apply in_or_app. right. left. reflexivity.
Qed.

Lemma path_file_parsing_witness :
  (exists msg,
     outcome Decimal.to_float (Sample.env ["5"; "5"; "1"; "maze"] Sample.ok)
       (Sample.both (Text.table_text Sample.header Sample.grid5)
          (Text.table_text [] [["1"; "1"]; ["2"; "2"; "2"]]))
     = inl (ValueError msg))
  /\ In Subplots
       (effects Decimal.to_float (Sample.env ["5"; "5"; "1"; "maze"] Sample.ok)
          (Sample.both (Text.table_text Sample.header Sample.grid5)
             (Text.table_text [] [["1"; "2"; "3"]; ["4"; "5"; "6"]]))).
Proof.
  split.
  - destruct (path_file_parsing Decimal.to_float
                (Sample.env ["5"; "5"; "1"; "maze"] Sample.ok)
                "run-save-bb8.py" "5" "5" "1" "maze" []
                (Sample.both (Text.table_text Sample.header Sample.grid5)
                   (Text.table_text [] [["1"; "1"]; ["2"; "2"; "2"]]))
                0 "path found"
                (Sample.both (Text.table_text Sample.header Sample.grid5)
                   (Text.table_text [] [["1"; "1"]; ["2"; "2"; "2"]]))
                (Text.table_text Sample.header Sample.grid5)
                (Numpy.Matrix Sample.grid5_values 5)
                [["1"; "1"]; ["2"; "2"; "2"]]
                eq_refl eq_refl eq_refl eq_refl eq_refl eq_refl)
      as [Hragged _].
    destruct (Hragged eq_refl) as (msg & _ & Hout & _).
    exists msg. exact Hout.
  - destruct (path_file_parsing Decimal.to_float
                (Sample.env ["5"; "5"; "1"; "maze"] Sample.ok)
                "run-save-bb8.py" "5" "5" "1" "maze" []
                (Sample.both (Text.table_text Sample.header Sample.grid5)
                   (Text.table_text [] [["1"; "2"; "3"]; ["4"; "5"; "6"]]))
                0 "path found"
                (Sample.both (Text.table_text Sample.header Sample.grid5)
                   (Text.table_text [] [["1"; "2"; "3"]; ["4"; "5"; "6"]]))
                (Text.table_text Sample.header Sample.grid5)
                (Numpy.Matrix Sample.grid5_values 5)
                [["1"; "2"; "3"]; ["4"; "5"; "6"]]
                eq_refl eq_refl eq_refl eq_refl eq_refl eq_refl)
      as [_ Huniform].
    destruct (Huniform
                [[Decimal.of_Z 1; Decimal.of_Z 2; Decimal.of_Z 3];
                 [Decimal.of_Z 4; Decimal.of_Z 5; Decimal.of_Z 6]]
                eq_refl eq_refl) as (_ & Hfigure).
    exact Hfigure.
Defined.

(** C6 as stated fails: a path file whose two lines have three fields each
    is read without exception, as an array of two rows and three columns,
    and the run draws the line through its first two columns and ends
    normally. *)
Lemma three_field_path_lines_are_accepted :
  Numpy.loadtxt_text Decimal.to_float 0
    (Text.table_text [] [["1"; "2"; "3"]; ["4"; "5"; "6"]])
  = inr (Numpy.Matrix
           [[Decimal.of_Z 1; Decimal.of_Z 2; Decimal.of_Z 3];
            [Decimal.of_Z 4; Decimal.of_Z 5; Decimal.of_Z 6]] 3)
  /\ outcome Decimal.to_float (Sample.env ["5"; "5"; "1"; "maze"] Sample.ok)
       (Sample.both (Text.table_text Sample.header Sample.grid5)
          (Text.table_text [] [["1"; "2"; "3"]; ["4"; "5"; "6"]]))
     = inr tt
  /\ In (Plot [Decimal.of_Z 1; Decimal.of_Z 4] [Decimal.of_Z 2; Decimal.of_Z 5]
              "5" "cyan")
        (effects Decimal.to_float (Sample.env ["5"; "5"; "1"; "maze"] Sample.ok)
           (Sample.both (Text.table_text Sample.header Sample.grid5)
              (Text.table_text [] [["1"; "2"; "3"]; ["4"; "5"; "6"]]))).
Proof.
  split; [reflexivity|]. split; [reflexivity|].
  vm_compute. tauto.
Qed.

(** ** C7 *)

(** A path file of two or more lines of two numeric fields each: the run
    draws one line over the heat map, with as many points as the file has
    lines, and ends without exception. *)
Lemma path_of_two_or_more_lines {F} (to_float : string -> option F)
    env script M N r o rest disk code out disk' g G ncols rows table :
  sys_argv env = script :: M :: N :: r :: o :: rest ->
  exec env [SAVE_BB8 env; M; N; r; o] disk = (Exited code out, disk') ->
  disk' !! CONFIG_SPACE_FILE env = Some g ->
  Numpy.loadtxt_text to_float 3 g = inr (Numpy.Matrix G ncols) ->
  forallb Text.clean_row rows = true ->
  Numpy.uniform 2 rows = true ->
  mapM (mapM to_float) rows = Some table ->
  2 <= length rows ->
  disk' !! SOLUTION_PATH_FILE env = Some (Text.table_text [] rows) ->
  exists x y,
    length x = length rows /\ length y = length rows
    /\ outcome to_float env disk = inr tt
    /\ effects to_float env disk =
         Spawn [SAVE_BB8 env; M; N; r; o]
           :: warning [SAVE_BB8 env; M; N; r; o] code out
           ++ [IsFile (CONFIG_SPACE_FILE env);
               IsFile (SOLUTION_PATH_FILE env);
               Open (CONFIG_SPACE_FILE env);
               Open (SOLUTION_PATH_FILE env);
               Subplots; Pcolormesh G "jet"; Plot x y "5" "cyan";
               Show; Savefig "solution.png"].
Proof.
  intros Hargv Hexec Hg HG Hclean Hu Hm Hlen Hp.
  pose proof (NumpyFacts.loadtxt_text_matrix to_float [] rows 2 table
                eq_refl Hclean Hu Hm Hlen (le_n 2)) as HP.
  pose proof (NumpyFacts.converted_widths to_float 2 rows table Hu Hm) as Hw.
  destruct (NumpyFacts.column_matrix table 2 0 Hw) as (x & Hx & Hlx); [lia|].
  destruct (NumpyFacts.column_matrix table 2 1 Hw) as (y & Hy & Hly); [lia|].
  pose proof (length_mapM _ _ _ Hm) as Hrows.
  assert (Hsize : Numpy.size (Numpy.Matrix table 2) <> 0).
  { unfold Numpy.size. cbn [Numpy.shape fold_right]. lia. }
  exists x, y. unfold outcome, effects.
  rewrite (run_with_path to_float env _ _ _ _ _ _ _ _ _ _ _ _ _ _ _ _ _
             Hargv Hexec Hg Hp HG HP Hsize Hx Hy).
  cbn [fst snd trace]. repeat split; congruence.
Qed.

(** A path file of one line of two numeric fields, whatever the two
    numbers: the array read from it has one dimension, and the run ends in
    the [IndexError] of the column access, after the heat map and before
    any line is drawn. *)
Lemma path_of_one_line {F} (to_float : string -> option F)
    env script M N r o rest disk code out disk' g G ncols a b va vb :
  sys_argv env = script :: M :: N :: r :: o :: rest ->
  exec env [SAVE_BB8 env; M; N; r; o] disk = (Exited code out, disk') ->
  disk' !! CONFIG_SPACE_FILE env = Some g ->
  Numpy.loadtxt_text to_float 3 g = inr (Numpy.Matrix G ncols) ->
  Text.clean_row [a; b] = true ->
  to_float a = Some va -> to_float b = Some vb ->
  disk' !! SOLUTION_PATH_FILE env = Some (Text.table_text [] [[a; b]]) ->
  Numpy.loadtxt_text to_float 0 (Text.table_text [] [[a; b]])
    = inr (Numpy.Vector [va; vb])
  /\ outcome to_float env disk = inl (IndexError "too many indices for array")
  /\ existsb is_overlay (effects to_float env disk) = false
  /\ existsb is_image (effects to_float env disk) = false.
Proof.
  intros Hargv Hexec Hg HG Hclean Ha Hb Hp.
  assert (HP : Numpy.loadtxt_text to_float 0 (Text.table_text [] [[a; b]])
               = inr (Numpy.Vector [va; vb])).
  { pose proof (NumpyFacts.loadtxt_text_table to_float [] [[a; b]] eq_refl) as H.
    cbn [length forallb] in H. rewrite Hclean in H. rewrite (H eq_refl).
    cbn [Numpy.first_width Numpy.first_row length Numpy.read_rows
         Numpy.convert_row Nat.eqb].
    rewrite Ha, Hb. reflexivity. }
  split; [exact HP|]. unfold outcome, effects.
  rewrite (run_exited to_float env _ _ _ _ _ _ _ _ _ _ Hargv Hexec).
  rewrite (after_solver_loaded to_float env _ _ _ _ _ _ Hg Hp HG HP).
  rewrite (draw_index_error _ _ _ _ _
             (IndexError "too many indices for array"));
    [| discriminate | reflexivity].
  cbn [fst snd trace]. split; [reflexivity|].
  unfold warning, no_data_warning.
  rewrite (NumpyFacts.matrix_no_data _ _ _ _ _ HG).
  destruct (code =? 0)%Z, (Numpy.no_data 0 (Text.table_text [] [[a; b]]));
    split; reflexivity.
Qed.

(** C7 at a path file of one line.  The file holds the single line [1 1]
    and the solver succeeded.  The array read from the file has one
    dimension and two elements, so it is not empty; the script then asks
    for its first column, which raises [IndexError].  No line is drawn
    and no figure is saved. *)
Theorem one_line_path_raises :
  Numpy.loadtxt_text Decimal.to_float 0 (Text.unlines ["1 1"])
    = inr (Numpy.Vector [Decimal.of_Z 1; Decimal.of_Z 1])
  /\ outcome Decimal.to_float (Sample.env ["5"; "5"; "1"; "maze"] Sample.ok)
       (Sample.both (Text.table_text Sample.header Sample.grid5) (Text.unlines ["1 1"]))
     = inl (IndexError "too many indices for array")
  /\ effects Decimal.to_float (Sample.env ["5"; "5"; "1"; "maze"] Sample.ok)
       (Sample.both (Text.table_text Sample.header Sample.grid5) (Text.unlines ["1 1"]))
     = [Spawn ["/home/kb/shield/build/bin/save-bb8"; "5"; "5"; "1"; "maze"];
        IsFile Sample.grid_path; IsFile Sample.path_path;
        Open Sample.grid_path; Open Sample.path_path;
        Subplots; Pcolormesh Sample.grid5_values "jet"].
Proof.
  repeat split; reflexivity.
Qed.

(** ** C8 *)

(** C8.  With [rows] and [cols] given as 5, a grid file of three header
    lines and five lines of five numeric fields, and a path file of the
    lines [1 1], [2 2], [3 3], the path is read as the three pairs in
    order, the run ends without exception, the line through the three
    points is drawn, and exactly one figure is saved. *)
Theorem round_trip_five_by_five
    env script r o rest disk code out disk' header rows table :
  sys_argv env = script :: "5" :: "5" :: r :: o :: rest ->
  exec env [SAVE_BB8 env; "5"; "5"; r; o] disk = (Exited code out, disk') ->
  length header = 3 ->
  forallb Text.one_line header = true ->
  forallb Text.clean_row rows = true ->
  length rows = 5 ->
  Numpy.uniform 5 rows = true ->
  mapM (mapM Decimal.to_float) rows = Some table ->
  disk' !! CONFIG_SPACE_FILE env = Some (Text.table_text header rows) ->
  disk' !! SOLUTION_PATH_FILE env = Some (Text.unlines ["1 1"; "2 2"; "3 3"]) ->
  Numpy.loadtxt_text Decimal.to_float 0 (Text.unlines ["1 1"; "2 2"; "3 3"])
    = inr (Numpy.Matrix
             [[Decimal.of_Z 1; Decimal.of_Z 1];
              [Decimal.of_Z 2; Decimal.of_Z 2];
              [Decimal.of_Z 3; Decimal.of_Z 3]] 2)
  /\ outcome Decimal.to_float env disk = inr tt
  /\ In (Pcolormesh table "jet") (effects Decimal.to_float env disk)
  /\ In (Plot [Decimal.of_Z 1; Decimal.of_Z 2; Decimal.of_Z 3]
              [Decimal.of_Z 1; Decimal.of_Z 2; Decimal.of_Z 3] "5" "cyan")
        (effects Decimal.to_float env disk)
  /\ List.filter is_image (effects Decimal.to_float env disk)
     = [Savefig "solution.png"].
Proof.
  intros Hargv Hexec Hlen Hhead Hclean Hrows Hu Hm Hg Hp.
  assert (HG : Numpy.loadtxt_text Decimal.to_float 3 (Text.table_text header rows)
               = inr (Numpy.Matrix table 5)).
  { pose proof (NumpyFacts.loadtxt_text_matrix Decimal.to_float header rows 5
                  table Hhead Hclean Hu Hm) as H.
    rewrite Hlen in H. apply H; lia. }
  assert (HP : Numpy.loadtxt_text Decimal.to_float 0
                 (Text.unlines ["1 1"; "2 2"; "3 3"])
               = inr (Numpy.Matrix
                        [[Decimal.of_Z 1; Decimal.of_Z 1];
                         [Decimal.of_Z 2; Decimal.of_Z 2];
                         [Decimal.of_Z 3; Decimal.of_Z 3]] 2))
    by reflexivity.
  split; [exact HP|].
  unfold outcome, effects.
  rewrite (run_with_path Decimal.to_float env _ _ _ _ _ _ _ _ _ _ _ _ _ _ _
             [Decimal.of_Z 1; Decimal.of_Z 2; Decimal.of_Z 3]
             [Decimal.of_Z 1; Decimal.of_Z 2; Decimal.of_Z 3]
             Hargv Hexec Hg Hp HG HP);
    [| discriminate | reflexivity | reflexivity].
  cbn [fst snd trace]. split; [reflexivity|].
  unfold warning. destruct (code =? 0)%Z; cbn; intuition.
Qed.

Lemma round_trip_five_by_five_witness :
  outcome Decimal.to_float (Sample.env ["5"; "5"; "1"; "maze"] Sample.ok)
    (Sample.both (Text.table_text Sample.header Sample.grid5)
       (Text.unlines ["1 1"; "2 2"; "3 3"])) = inr tt
  /\ List.filter is_image
       (effects Decimal.to_float (Sample.env ["5"; "5"; "1"; "maze"] Sample.ok)
          (Sample.both (Text.table_text Sample.header Sample.grid5)
             (Text.unlines ["1 1"; "2 2"; "3 3"])))
     = [Savefig "solution.png"].
Proof.
  destruct (round_trip_five_by_five
              (Sample.env ["5"; "5"; "1"; "maze"] Sample.ok)
              "run-save-bb8.py" "1" "maze" []
              (Sample.both (Text.table_text Sample.header Sample.grid5)
                 (Text.unlines ["1 1"; "2 2"; "3 3"]))
              0 "path found"
              (Sample.both (Text.table_text Sample.header Sample.grid5)
                 (Text.unlines ["1 1"; "2 2"; "3 3"]))
              Sample.header Sample.grid5 Sample.grid5_values
              eq_refl eq_refl eq_refl eq_refl eq_refl eq_refl eq_refl eq_refl
              eq_refl eq_refl) as (_ & Hout & _ & _ & Himg).
  split; assumption.
Defined.

(** ** C9 *)

(** C9.  Two runs of the same checkout whose solvers ran to their end and
    left the same grid file and the same path file, whatever the four
    arguments and the exit codes were: both runs end the same way, and
    after the launch and its warning both traces go on with the very same
    events, none of which starts a process or prints.  The arguments show
    up in the command line of the launch and in the warning that quotes it,
    and nowhere else.  In particular both runs read the same arrays from
    the two files. *)
Theorem arguments_reach_only_the_command_line {F} (to_float : string -> option F)
    env1 script1 M1 N1 r1 o1 rest1 disk1 code1 out1 after1
    env2 script2 M2 N2 r2 o2 rest2 disk2 code2 out2 after2 :
  script_parent env1 = script_parent env2 ->
  sys_argv env1 = script1 :: M1 :: N1 :: r1 :: o1 :: rest1 ->
  sys_argv env2 = script2 :: M2 :: N2 :: r2 :: o2 :: rest2 ->
  exec env1 [SAVE_BB8 env1; M1; N1; r1; o1] disk1 = (Exited code1 out1, after1) ->
  exec env2 [SAVE_BB8 env2; M2; N2; r2; o2] disk2 = (Exited code2 out2, after2) ->
  after1 !! CONFIG_SPACE_FILE env1 = after2 !! CONFIG_SPACE_FILE env2 ->
  after1 !! SOLUTION_PATH_FILE env1 = after2 !! SOLUTION_PATH_FILE env2 ->
  outcome to_float env1 disk1 = outcome to_float env2 disk2
  /\ (exists evs,
        existsb is_launch evs = false
        /\ effects to_float env1 disk1 =
             Spawn [SAVE_BB8 env1; M1; N1; r1; o1]
               :: warning [SAVE_BB8 env1; M1; N1; r1; o1] code1 out1 ++ evs
        /\ effects to_float env2 disk2 =
             Spawn [SAVE_BB8 env2; M2; N2; r2; o2]
               :: warning [SAVE_BB8 env2; M2; N2; r2; o2] code2 out2 ++ evs)
  /\ Numpy.loadtxt_text to_float 3 <$> after1 !! CONFIG_SPACE_FILE env1
     = Numpy.loadtxt_text to_float 3 <$> after2 !! CONFIG_SPACE_FILE env2
  /\ Numpy.loadtxt_text to_float 0 <$> after1 !! SOLUTION_PATH_FILE env1
     = Numpy.loadtxt_text to_float 0 <$> after2 !! SOLUTION_PATH_FILE env2.
Proof.
  intros Hparent Hargv1 Hargv2 Hexec1 Hexec2 Hgrid Hpath.
  assert (Hg : CONFIG_SPACE_FILE env1 = CONFIG_SPACE_FILE env2).
  { unfold CONFIG_SPACE_FILE, _OUTPUT_DIR, _PROJECT_DIR. rewrite Hparent. reflexivity. }
  assert (Hp : SOLUTION_PATH_FILE env1 = SOLUTION_PATH_FILE env2).
  { unfold SOLUTION_PATH_FILE, _OUTPUT_DIR, _PROJECT_DIR. rewrite Hparent. reflexivity. }
  unfold outcome, effects.
  rewrite (run_exited to_float env1 _ _ _ _ _ _ _ _ _ _ Hargv1 Hexec1).
  rewrite (run_exited to_float env2 _ _ _ _ _ _ _ _ _ _ Hargv2 Hexec2).
  rewrite (after_solver_same_paths to_float env1 env2 Hparent).
  rewrite Hg in Hgrid. rewrite Hp in Hpath.
  match goal with
  | |- context [after_solver _ _ {| files := after1; trace := ?t1 |}] =>
      match goal with
      | |- context [after_solver _ _ {| files := after2; trace := ?t2 |}] =>
          destruct (local_after_solver to_float env2 after1 after2 t1 t2
                      (conj Hgrid Hpath)) as (res & evs & Hquiet & E1 & E2)
      end
  end.
  rewrite E1, E2. cbn [fst snd trace]. split; [reflexivity|]. split.
  - exists evs. auto.
  - rewrite Hg, Hp, Hgrid, Hpath. split; reflexivity.
Qed.

Lemma arguments_reach_only_the_command_line_witness :
  outcome Decimal.to_float (Sample.env ["5"; "5"; "1"; "maze"] Sample.ok)
    (Sample.both (Text.table_text Sample.header Sample.grid5)
       (Text.unlines ["1 1"; "2 2"; "3 3"]))
  = outcome Decimal.to_float (Sample.env ["40"; "7"; "2.5"; "rooms"] Sample.failed)
      (Sample.both (Text.table_text Sample.header Sample.grid5)
         (Text.unlines ["1 1"; "2 2"; "3 3"])).
Proof.
  apply (arguments_reach_only_the_command_line Decimal.to_float
           (Sample.env ["5"; "5"; "1"; "maze"] Sample.ok)
           "run-save-bb8.py" "5" "5" "1" "maze" []
           (Sample.both (Text.table_text Sample.header Sample.grid5)
              (Text.unlines ["1 1"; "2 2"; "3 3"]))
           0 "path found"
           (Sample.both (Text.table_text Sample.header Sample.grid5)
              (Text.unlines ["1 1"; "2 2"; "3 3"]))
           (Sample.env ["40"; "7"; "2.5"; "rooms"] Sample.failed)
           "run-save-bb8.py" "40" "7" "2.5" "rooms" []
           (Sample.both (Text.table_text Sample.header Sample.grid5)
              (Text.unlines ["1 1"; "2 2"; "3 3"]))
           1 "no such obstacle layout"
           (Sample.both (Text.table_text Sample.header Sample.grid5)
              (Text.unlines ["1 1"; "2 2"; "3 3"])));
    reflexivity.
Defined.

(** ** C10 *)

(** C10.  A solver that cannot be started ends the run at once: the
    [OSError] of the launch is not caught, and the trace holds the launch
    and nothing else, so the data files are not even looked for.  A solver
    that did start is what the [except] clause covers: after it the run
    prints the warning, if the exit code is not zero, and goes on to look
    for the grid file. *)
Theorem launch_failure_aborts {F} (to_float : string -> option F)
    env script M N r o rest disk how disk' :
  sys_argv env = script :: M :: N :: r :: o :: rest ->
  exec env [SAVE_BB8 env; M; N; r; o] disk = (how, disk') ->
  match how with
  | LaunchFailed msg =>
      outcome to_float env disk = inl (OSError msg)
      /\ effects to_float env disk = [Spawn [SAVE_BB8 env; M; N; r; o]]
  | Exited code out =>
      exists evs,
        effects to_float env disk =
          Spawn [SAVE_BB8 env; M; N; r; o]
            :: warning [SAVE_BB8 env; M; N; r; o] code out
            ++ IsFile (CONFIG_SPACE_FILE env) :: evs
  end.
Proof.
  intros Hargv Hexec. unfold outcome, effects. destruct how as [msg|code out].
  - rewrite (run_launch_failed to_float env _ _ _ _ _ _ _ _ _ Hargv Hexec).
    split; reflexivity.
  - rewrite (run_exited to_float env _ _ _ _ _ _ _ _ _ _ Hargv Hexec).
    match goal with |- context [after_solver _ _ {| files := ?fs; trace := ?t |}] =>
      destruct (after_solver_probes_first to_float env fs t) as (res & evs & E)
    end.
    rewrite E. exists evs. reflexivity.
Qed.

Lemma launch_failure_aborts_witness :
  outcome Decimal.to_float
    (Sample.env ["5"; "5"; "1"; "maze"] (LaunchFailed "No such file or directory"))
    (Sample.both (Text.table_text Sample.header Sample.grid5) EmptyString)
  = inl (OSError "No such file or directory")
  /\ effects Decimal.to_float
       (Sample.env ["5"; "5"; "1"; "maze"] (LaunchFailed "No such file or directory"))
       (Sample.both (Text.table_text Sample.header Sample.grid5) EmptyString)
     = [Spawn ["/home/kb/shield/build/bin/save-bb8"; "5"; "5"; "1"; "maze"]].
Proof.
  apply (launch_failure_aborts Decimal.to_float
           (Sample.env ["5"; "5"; "1"; "maze"] (LaunchFailed "No such file or directory"))
           "run-save-bb8.py" "5" "5" "1" "maze" []
           (Sample.both (Text.table_text Sample.header Sample.grid5) EmptyString)
           (LaunchFailed "No such file or directory")
           (Sample.both (Text.table_text Sample.header Sample.grid5) EmptyString));
    reflexivity.
Defined.

(** * Further properties of the script *)

(** ** Every way a run can go *)

Module RunFacts.
Import Script ScriptFacts.

Section WithFloat.

Context {F : Type} (to_float : string -> option F) (env : environment).

(** The drawing statements, case by case. *)
Lemma draw_cases fs t G (P : Numpy.ndarray F) :
  draw G P {| files := fs; trace := t |} =
    match G with
    | Numpy.Matrix rows _ =>
        if (Numpy.size P =? 0)%nat then
          (inr tt,
           {| files := fs;
              trace := t ++ [Subplots; Pcolormesh rows "jet"; Show;
                             Savefig "solution.png"] |})
        else
          match Numpy.column P 0 with
          | inl e =>
              (inl e, {| files := fs;
                         trace := t ++ [Subplots; Pcolormesh rows "jet"] |})
          | inr x =>
              match Numpy.column P 1 with
              | inl e =>
                  (inl e, {| files := fs;
                             trace := t ++ [Subplots; Pcolormesh rows "jet"] |})
              | inr y =>
                  (inr tt,
                   {| files := fs;
                      trace := t ++ [Subplots; Pcolormesh rows "jet";
                                     Plot x y "5" "cyan"; Show;
                                     Savefig "solution.png"] |})
              end
          end
    | _ =>
        (inl (ValueError "not enough values to unpack (expected 2)"),
         {| files := fs; trace := t ++ [Subplots] |})
    end.
Proof.
  cbv beta iota delta
    [draw subplots pcolormesh plot show savefig lift log bind ret raise
     files trace].
  destruct G; try reflexivity.
  destruct (Numpy.size P =? 0)%nat; cbn [negb].
  - rewrite <- !app_assoc. reflexivity.
  - destruct (Numpy.column P 0); [rewrite <- !app_assoc; reflexivity|].
    destruct (Numpy.column P 1); rewrite <- !app_assoc; reflexivity.
Qed.

(** The statements after the launch, case by case. *)
Lemma after_solver_cases fs t :
  after_solver to_float env {| files := fs; trace := t |} =
    match fs !! CONFIG_SPACE_FILE env with
    | None =>
        (inl (Exception ["Config space file not found: "; CONFIG_SPACE_FILE env]),
         {| files := fs; trace := t ++ [IsFile (CONFIG_SPACE_FILE env)] |})
    | Some g =>
        match fs !! SOLUTION_PATH_FILE env with
        | None =>
            (inl (Exception ["Solution path file found: ";
                             SOLUTION_PATH_FILE env]),
             {| files := fs;
                trace := t ++ [IsFile (CONFIG_SPACE_FILE env);
                               IsFile (SOLUTION_PATH_FILE env)] |})
        | Some p =>
            match Numpy.loadtxt_text to_float 3 g with
            | inl e =>
                (inl e,
                 {| files := fs;
                    trace := t ++ [IsFile (CONFIG_SPACE_FILE env);
                                   IsFile (SOLUTION_PATH_FILE env);
                                   Open (CONFIG_SPACE_FILE env)] |})
            | inr G =>
                match Numpy.loadtxt_text to_float 0 p with
                | inl e =>
                    (inl e,
                     {| files := fs;
                        trace := t ++ [IsFile (CONFIG_SPACE_FILE env);
                                       IsFile (SOLUTION_PATH_FILE env);
                                       Open (CONFIG_SPACE_FILE env)]
                                   ++ no_data_warning 3 g
                                   ++ [Open (SOLUTION_PATH_FILE env)] |})
                | inr P =>
                    draw G P
                      {| files := fs;
                         trace := t ++ [IsFile (CONFIG_SPACE_FILE env);
                                        IsFile (SOLUTION_PATH_FILE env);
                                        Open (CONFIG_SPACE_FILE env)]
                                    ++ no_data_warning 3 g
                                    ++ [Open (SOLUTION_PATH_FILE env)]
                                    ++ no_data_warning 0 p |}
                end
            end
        end
    end.
Proof.
  destruct (fs !! CONFIG_SPACE_FILE env) as [g|] eqn:Hg.
  2: { apply (after_solver_no_grid to_float env {| files := fs; trace := t |}), Hg. }
  destruct (fs !! SOLUTION_PATH_FILE env) as [p|] eqn:Hp.
  2: { apply (after_solver_no_path to_float env {| files := fs; trace := t |} g);
       assumption. }
  destruct (Numpy.loadtxt_text to_float 3 g) as [e|G] eqn:HG.
  { eapply after_solver_bad_grid; eassumption. }
  destruct (Numpy.loadtxt_text to_float 0 p) as [e|P] eqn:HP.
  { eapply after_solver_bad_path; eassumption. }
  eapply after_solver_loaded; eassumption.
Qed.

(** A whole run, case by case. *)
Lemma run_cases disk :
  run to_float env disk =
    match sys_argv env with
    | script :: M :: N :: r :: o :: rest =>
        match exec env [SAVE_BB8 env; M; N; r; o] disk with
        | (LaunchFailed msg, disk') =>
            (inl (OSError msg),
             {| files := disk'; trace := [Spawn [SAVE_BB8 env; M; N; r; o]] |})
        | (Exited code out, disk') =>
            after_solver to_float env
              {| files := disk';
                 trace := Spawn [SAVE_BB8 env; M; N; r; o]
                          :: warning [SAVE_BB8 env; M; N; r; o] code out |}
        end
    | _ =>
        (inl (IndexError "list index out of range"),
         {| files := disk; trace := [] |})
    end.
Proof.
  destruct (sys_argv env) as [|script [|M [|N [|r [|o rest]]]]] eqn:Hargv;
    try (apply run_missing_argument; rewrite Hargv; simpl; lia).
  destruct (exec env [SAVE_BB8 env; M; N; r; o] disk) as [[msg|code out] disk']
    eqn:Hexec.
  - eapply run_launch_failed; eassumption.
  - eapply run_exited; eassumption.
Qed.

End WithFloat.

(** Splitting what is left of a run into all its cases, down to the lists
    of events. *)
Ltac split_cases :=
  repeat first
    [ progress cbn [fst snd files trace]
    | rewrite after_solver_cases
    | rewrite draw_cases
    | progress unfold warning, no_data_warning
    | match goal with
      | |- context [match ?x with _ => _ end] => destruct x
      end ];
  cbn [app].


End RunFacts.

Import RunFacts.

(** ** The figure *)


(** ** The order of the steps *)


(** ** What is printed *)

(** X3.  Once the solver has run to its end, the run prints exactly the
    warning of the exit code: nothing at all when the code is zero, so the
    captured output of a successful solver is dropped, and the one warning
    otherwise.  Nothing after the launch prints. *)
Theorem prints_are_the_warning {F} (to_float : string -> option F)
    env script M N r o rest disk code out disk' :
  sys_argv env = script :: M :: N :: r :: o :: rest ->
  exec env [SAVE_BB8 env; M; N; r; o] disk = (Exited code out, disk') ->
  List.filter is_print (effects to_float env disk)
    = warning [SAVE_BB8 env; M; N; r; o] code out
  /\ (code = 0%Z -> List.filter is_print (effects to_float env disk) = []).
Proof.
  intros Hargv Hexec.
  assert (E : List.filter is_print (effects to_float env disk)
              = warning [SAVE_BB8 env; M; N; r; o] code out).
  { unfold effects.
    rewrite (run_exited to_float env _ _ _ _ _ _ _ _ _ _ Hargv Hexec).
    split_cases; reflexivity. }
  split; [exact E|]. intros ->. rewrite E. reflexivity.
Qed.

Lemma prints_are_the_warning_witness :
  List.filter is_print
    (effects Decimal.to_float (Sample.env ["5"; "5"; "1"; "maze"] Sample.ok)
       (Sample.both (Text.table_text Sample.header Sample.grid5)
          (Text.unlines ["1 1"; "2 2"; "3 3"])))
  = [].
Proof.
  apply (prints_are_the_warning Decimal.to_float
           (Sample.env ["5"; "5"; "1"; "maze"] Sample.ok)
           "run-save-bb8.py" "5" "5" "1" "maze" []
           (Sample.both (Text.table_text Sample.header Sample.grid5)
              (Text.unlines ["1 1"; "2 2"; "3 3"]))
           0 "path found"
           (Sample.both (Text.table_text Sample.header Sample.grid5)
              (Text.unlines ["1 1"; "2 2"; "3 3"]))
           eq_refl eq_refl); reflexivity.
Defined.

(** ** Which error comes first *)

(** X4.  Both files are looked for before either is read.  When the path
    file is missing the run raises the exception that names it whatever
    the grid file holds, well formed or not, and no file has been
    opened. *)
Theorem missing_path_file_comes_before_parsing {F}
    (to_float : string -> option F)
    env script M N r o rest disk code out disk' g :
  sys_argv env = script :: M :: N :: r :: o :: rest ->
  exec env [SAVE_BB8 env; M; N; r; o] disk = (Exited code out, disk') ->
  disk' !! CONFIG_SPACE_FILE env = Some g ->
  disk' !! SOLUTION_PATH_FILE env = None ->
  outcome to_float env disk =
    inl (Exception ["Solution path file found: "; SOLUTION_PATH_FILE env])
  /\ List.filter is_probe_or_later (effects to_float env disk)
     = [IsFile (CONFIG_SPACE_FILE env); IsFile (SOLUTION_PATH_FILE env)].
Proof.
  intros Hargv Hexec Hg Hp. unfold outcome, effects.
  rewrite (run_exited to_float env _ _ _ _ _ _ _ _ _ _ Hargv Hexec).
  rewrite after_solver_cases, Hg, Hp. cbn [fst snd trace].
  split; [reflexivity|].
  unfold warning. destruct (code =? 0)%Z; reflexivity.
Qed.

Lemma missing_path_file_comes_before_parsing_witness :
  outcome Decimal.to_float (Sample.env ["5"; "5"; "1"; "maze"] Sample.ok)
    (Sample.only_grid "not a grid at all")
  = inl (Exception ["Solution path file found: "; Sample.path_path]).
Proof.
  apply (missing_path_file_comes_before_parsing Decimal.to_float
           (Sample.env ["5"; "5"; "1"; "maze"] Sample.ok)
           "run-save-bb8.py" "5" "5" "1" "maze" []
           (Sample.only_grid "not a grid at all") 0 "path found"
           (Sample.only_grid "not a grid at all") "not a grid at all");
    reflexivity.
Defined.

(** X5.  The grid file is read before the path file.  With both files on
    the disk, a grid file that [loadtxt] refuses ends the run in that
    [ValueError] whatever the path file holds; the grid file is the only
    file that was opened, and nothing is drawn. *)
Theorem refused_grid_comes_before_the_path_file {F}
    (to_float : string -> option F)
    env script M N r o rest disk code out disk' g p e :
  sys_argv env = script :: M :: N :: r :: o :: rest ->
  exec env [SAVE_BB8 env; M; N; r; o] disk = (Exited code out, disk') ->
  disk' !! CONFIG_SPACE_FILE env = Some g ->
  disk' !! SOLUTION_PATH_FILE env = Some p ->
  Numpy.loadtxt_text to_float 3 g = inl e ->
  outcome to_float env disk = inl e
  /\ is_ValueError e = true
  /\ List.filter is_probe_or_later (effects to_float env disk)
     = [IsFile (CONFIG_SPACE_FILE env); IsFile (SOLUTION_PATH_FILE env);
        Open (CONFIG_SPACE_FILE env)].
Proof.
  intros Hargv Hexec Hg Hp HG. unfold outcome, effects.
  rewrite (run_exited to_float env _ _ _ _ _ _ _ _ _ _ Hargv Hexec).
  rewrite after_solver_cases, Hg, Hp, HG. cbn [fst snd trace].
  split; [reflexivity|]. split.
  - unfold Numpy.loadtxt_text, Numpy.read_table in HG.
    destruct (Numpy.read_rows _ _ _) eqn:E; [|discriminate].
    inversion HG; subst. eapply NumpyFacts.read_rows_inl, E.
  - unfold warning. destruct (code =? 0)%Z; reflexivity.
Qed.

Lemma refused_grid_comes_before_the_path_file_witness :
  exists e,
    outcome Decimal.to_float (Sample.env ["5"; "5"; "1"; "maze"] Sample.ok)
      (Sample.both (Text.table_text Sample.header [["0"; "1"]; ["wall"; "1"]])
         "neither a path")
    = inl e /\ is_ValueError e = true.
Proof.
  eexists.
  refine (let H := refused_grid_comes_before_the_path_file Decimal.to_float
           (Sample.env ["5"; "5"; "1"; "maze"] Sample.ok)
           "run-save-bb8.py" "5" "5" "1" "maze" []
           (Sample.both (Text.table_text Sample.header [["0"; "1"]; ["wall"; "1"]])
              "neither a path")
           0 "path found"
           (Sample.both (Text.table_text Sample.header [["0"; "1"]; ["wall"; "1"]])
              "neither a path")
           (Text.table_text Sample.header [["0"; "1"]; ["wall"; "1"]])
           "neither a path" _ eq_refl eq_refl eq_refl eq_refl eq_refl in _).
  destruct H as (Hout & He & _). split; [exact Hout | exact He].
Defined.

(** ** Arrays that lost a dimension *)

Module ShapeFacts.
Import Text TextFacts Numpy NumpyFacts.

Section WithFloat.

Context {F : Type} (to_float : string -> option F).

(** Whatever [loadtxt] refuses, it refuses with a [ValueError]. *)
Lemma loadtxt_text_inl skiprows text e :
  loadtxt_text to_float skiprows text = inl e -> is_ValueError e = true.
Proof.
  unfold loadtxt_text, read_table.
  destruct (read_rows _ _ _) eqn:E; [|discriminate].
  intros H. inversion H; subst. eapply read_rows_inl, E.
Qed.

(** A table of at most one row, or of one column, does not stay a
    matrix. *)
Lemma squeeze_flat (table : list (list F)) ncols :
  length table <= 1 \/ ncols = 1 ->
  forall rows n, squeeze table ncols <> Matrix rows n.
Proof.
  intros Hflat rows n. unfold squeeze.
  destruct table as [|r1 [|r2 table]]; [discriminate | | ].
  - destruct r1 as [|v [|v' r1]]; discriminate.
  - destruct Hflat as [Hlen | ->]; [simpl in Hlen; lia | discriminate].
Qed.

(** Such a table with at least one entry becomes an array that is not
    empty and has no columns to index. *)
Lemma squeeze_flat_column (table : list (list F)) ncols k :
  table <> [] ->
  Forall (fun r => length r = ncols) table ->
  1 <= ncols ->
  length table = 1 \/ ncols = 1 ->
  size (squeeze table ncols) <> 0
  /\ column (squeeze table ncols) k = inl (IndexError "too many indices for array").
Proof.
  intros Hne Hw Hcols Hflat. unfold squeeze.
  destruct table as [|r1 [|r2 table]]; [congruence | | ].
  - inversion Hw as [|? ? Hr1 _]; subst.
    destruct r1 as [|v [|v' r1]]; [simpl in Hcols; lia | | ];
      split; (reflexivity || discriminate).
  - destruct Hflat as [Hlen | ->]; [simpl in Hlen; lia|].
    cbn [Nat.eqb]. split; [|reflexivity].
    inversion Hw as [|? ? Hr1 _]; subst.
    destruct r1 as [|v r1]; [discriminate|].
    unfold size. cbn [shape fold_right concat app length]. lia.
Qed.

(** The rows of a written table are data. *)
Lemma table_has_data header row rows :
  forallb one_line header = true ->
  forallb clean_row (row :: rows) = true ->
  no_data (length header) (table_text header (row :: rows)) = false.
Proof.
  intros Hh Hr. unfold no_data.
  rewrite (data_rows_table to_float header (row :: rows) Hh Hr). reflexivity.
Qed.

(** *** Carriage returns *)

Lemma universal_newlines_crlf s :
  free_of CR s = true -> universal_newlines (to_crlf s) = s.
Proof.
  induction s as [|c s IH]; [reflexivity|].
  cbn [free_of to_crlf]. intros H. apply andb_prop in H as [Hc Hs].
  apply negb_true_iff in Hc.
  destruct (Ascii.eqb c LF) eqn:Hlf.
  - apply Ascii.eqb_eq in Hlf. subst c.
    cbn [universal_newlines starts_with].
    rewrite !Ascii.eqb_refl. rewrite Hc. rewrite (IH Hs). reflexivity.
  - cbn [universal_newlines]. rewrite Hc, (IH Hs). reflexivity.
Qed.

Lemma loadtxt_text_crlf skiprows text :
  free_of CR text = true ->
  loadtxt_text to_float skiprows (to_crlf text)
    = loadtxt_text to_float skiprows text
  /\ no_data skiprows (to_crlf text) = no_data skiprows text.
Proof.
  intros H. unfold loadtxt_text, read_table, no_data, data_rows.
  rewrite (universal_newlines_crlf _ H), (universal_newlines_id _ H).
  split; reflexivity.
Qed.

End WithFloat.
End ShapeFacts.

Import ShapeFacts.

(** X6.  A grid file with fewer than two data lines, or with a single
    field on its first data line, never gives a figure.  With both files
    on the disk the run ends in a [ValueError] whatever the path file
    holds: the array read from such a file has lost a dimension (or the
    file is refused outright), and [pcolormesh] does not take it. *)
Theorem flat_grid_is_never_drawn {F} (to_float : string -> option F)
    env script M N r o rest disk code out disk' header rows p :
  sys_argv env = script :: M :: N :: r :: o :: rest ->
  exec env [SAVE_BB8 env; M; N; r; o] disk = (Exited code out, disk') ->
  length header = 3 ->
  forallb Text.one_line header = true ->
  forallb Text.clean_row rows = true ->
  length rows <= 1 \/ Numpy.first_width rows = 1 ->
  disk' !! CONFIG_SPACE_FILE env = Some (Text.table_text header rows) ->
  disk' !! SOLUTION_PATH_FILE env = Some p ->
  (exists msg, outcome to_float env disk = inl (ValueError msg))
  /\ existsb (fun e => is_overlay e || is_show e || is_image e)
       (effects to_float env disk) = false.
Proof.
  intros Hargv Hexec Hlen Hhead Hclean Hflat Hg Hp.
  pose proof (NumpyFacts.loadtxt_text_table to_float header rows Hhead Hclean)
    as HG.
  rewrite Hlen in HG.
  assert (Herr : forall e, is_ValueError e = true -> exists msg, e = ValueError msg).
  { intros [] He; try discriminate. eauto. }
  unfold outcome, effects.
  rewrite (run_exited to_float env _ _ _ _ _ _ _ _ _ _ Hargv Hexec).
  rewrite after_solver_cases, Hg, Hp, HG.
  destruct (Numpy.read_rows to_float (Numpy.first_width rows) rows)
    as [e|table] eqn:E.
  - apply NumpyFacts.read_rows_inl in E. destruct (Herr e E) as [msg ->].
    cbn [fst snd trace]. split; [eauto|].
    unfold warning. destruct (code =? 0)%Z; reflexivity.
  - apply NumpyFacts.read_rows_inr in E as [Hu Hm].
    assert (Hflat' : length table <= 1 \/ Numpy.first_width rows = 1).
    { rewrite <- (length_mapM _ _ _ Hm). exact Hflat. }
    pose proof (squeeze_flat table _ Hflat') as Hsq.
    destruct (Numpy.loadtxt_text to_float 0 p) as [e|P] eqn:HP.
    + destruct (Herr e (loadtxt_text_inl to_float _ _ _ HP)) as [msg ->].
      cbn [fst snd trace]. split; [eauto|].
      unfold warning, no_data_warning.
      destruct (code =? 0)%Z, (Numpy.no_data 3 _); reflexivity.
    + rewrite draw_cases.
      destruct (Numpy.squeeze table (Numpy.first_width rows)) as [v|vs|rows' n];
        [| |exfalso; eapply Hsq; reflexivity];
        (cbn [fst snd trace]; split; [eauto|];
         unfold warning, no_data_warning;
         destruct (code =? 0)%Z, (Numpy.no_data 3 _), (Numpy.no_data 0 p);
         reflexivity).
Qed.

Lemma flat_grid_is_never_drawn_witness :
  exists msg,
    outcome Decimal.to_float (Sample.env ["1"; "5"; "1"; "maze"] Sample.ok)
      (Sample.both (Text.table_text Sample.header [["0"; "1"; "1"; "1"; "0"]])
         (Text.unlines ["1 1"; "2 2"; "3 3"]))
    = inl (ValueError msg).
Proof.
  apply (flat_grid_is_never_drawn Decimal.to_float
           (Sample.env ["1"; "5"; "1"; "maze"] Sample.ok)
           "run-save-bb8.py" "1" "5" "1" "maze" []
           (Sample.both (Text.table_text Sample.header [["0"; "1"; "1"; "1"; "0"]])
              (Text.unlines ["1 1"; "2 2"; "3 3"]))
           0 "path found"
           (Sample.both (Text.table_text Sample.header [["0"; "1"; "1"; "1"; "0"]])
              (Text.unlines ["1 1"; "2 2"; "3 3"]))
           Sample.header [["0"; "1"; "1"; "1"; "0"]]
           (Text.unlines ["1 1"; "2 2"; "3 3"])
           eq_refl eq_refl eq_refl eq_refl eq_refl (or_introl (le_n 1))
           eq_refl eq_refl).
Defined.

(** X7.  A path file that is read as an array without columns: one line
    of numeric fields, or several lines of one numeric field each.  With a
    grid of two dimensions the run reads both files and draws the heat
    map, then ends in the [IndexError] of the column access; the line is
    not drawn and nothing is shown or saved. *)
Theorem flat_path_ends_in_index_error {F} (to_float : string -> option F)
    env script M N r o rest disk code out disk' g G ncols row rows table :
  sys_argv env = script :: M :: N :: r :: o :: rest ->
  exec env [SAVE_BB8 env; M; N; r; o] disk = (Exited code out, disk') ->
  disk' !! CONFIG_SPACE_FILE env = Some g ->
  Numpy.loadtxt_text to_float 3 g = inr (Numpy.Matrix G ncols) ->
  forallb Text.clean_row (row :: rows) = true ->
  Numpy.uniform (length row) (row :: rows) = true ->
  mapM (mapM to_float) (row :: rows) = Some table ->
  rows = [] \/ length row = 1 ->
  disk' !! SOLUTION_PATH_FILE env = Some (Text.table_text [] (row :: rows)) ->
  outcome to_float env disk = inl (IndexError "too many indices for array")
  /\ List.filter is_probe_or_later (effects to_float env disk)
     = [IsFile (CONFIG_SPACE_FILE env); IsFile (SOLUTION_PATH_FILE env);
        Open (CONFIG_SPACE_FILE env); Open (SOLUTION_PATH_FILE env);
        Subplots; Pcolormesh G "jet"].
Proof.
  intros Hargv Hexec Hg HG Hclean Hu Hm Hflat Hp.
  pose proof (NumpyFacts.loadtxt_text_table to_float [] (row :: rows)
                eq_refl Hclean) as HP.
  cbn [length Numpy.first_width Numpy.first_row] in HP.
  rewrite (proj2 (NumpyFacts.read_rows_inr to_float _ _ table) (conj Hu Hm)) in HP.
  pose proof (NumpyFacts.converted_widths to_float _ _ _ Hu Hm) as Hw.
  assert (Hrow : 1 <= length row).
  { cbn [forallb] in Hclean. apply andb_prop in Hclean as [Hc _].
    destruct row; [discriminate | simpl; lia]. }
  assert (Hne : table <> []).
  { intros ->. apply length_mapM in Hm. discriminate. }
  assert (Hflat' : length table = 1 \/ length row = 1).
  { destruct Hflat as [-> | H]; [left | right; exact H].
    symmetry. apply (length_mapM _ _ _ Hm). }
  destruct (squeeze_flat_column table (length row) 0 Hne Hw Hrow Hflat')
    as [Hsize Hcol].
  unfold outcome, effects.
  rewrite (run_exited to_float env _ _ _ _ _ _ _ _ _ _ Hargv Hexec).
  rewrite after_solver_cases, Hg, Hp, HG, HP, draw_cases.
  destruct (Nat.eqb_spec (Numpy.size (Numpy.squeeze table (length row))) 0)
    as [|_]; [contradiction|].
  rewrite Hcol. cbn [fst snd trace]. split; [reflexivity|].
  unfold no_data_warning.
  rewrite (NumpyFacts.matrix_no_data _ _ _ _ _ HG).
  pose proof (table_has_data to_float [] row rows eq_refl Hclean) as Hdata.
  cbn [length] in Hdata. rewrite Hdata.
  unfold warning. destruct (code =? 0)%Z; reflexivity.
Qed.

Lemma flat_path_ends_in_index_error_witness :
  outcome Decimal.to_float (Sample.env ["5"; "5"; "1"; "maze"] Sample.ok)
    (Sample.both (Text.table_text Sample.header Sample.grid5)
       (Text.table_text [] [["1"]; ["2"]; ["3"]]))
  = inl (IndexError "too many indices for array").
Proof.
  apply (flat_path_ends_in_index_error Decimal.to_float
           (Sample.env ["5"; "5"; "1"; "maze"] Sample.ok)
           "run-save-bb8.py" "5" "5" "1" "maze" []
           (Sample.both (Text.table_text Sample.header Sample.grid5)
              (Text.table_text [] [["1"]; ["2"]; ["3"]]))
           0 "path found"
           (Sample.both (Text.table_text Sample.header Sample.grid5)
              (Text.table_text [] [["1"]; ["2"]; ["3"]]))
           (Text.table_text Sample.header Sample.grid5)
           Sample.grid5_values 5 ["1"] [["2"]; ["3"]]
           [[Decimal.of_Z 1]; [Decimal.of_Z 2]; [Decimal.of_Z 3]]
           eq_refl eq_refl eq_refl eq_refl eq_refl eq_refl eq_refl
           (or_intror eq_refl) eq_refl).
Defined.

(** ** The line over the heat map *)

(** X8.  A path file of two or more lines of two numeric fields: the
    line is drawn through one point per line of the file, in the order of
    the file, the first field of a line giving [x] and the second [y];
    the figure is then shown and saved and the run ends normally. *)
Theorem path_points_follow_the_file {F} (to_float : string -> option F)
    env script M N r o rest disk code out disk' g G ncols
    (pts : list (string * string)) (vals : list (F * F)) :
  sys_argv env = script :: M :: N :: r :: o :: rest ->
  exec env [SAVE_BB8 env; M; N; r; o] disk = (Exited code out, disk') ->
  disk' !! CONFIG_SPACE_FILE env = Some g ->
  Numpy.loadtxt_text to_float 3 g = inr (Numpy.Matrix G ncols) ->
  forallb Text.clean_row (map (fun pt => [fst pt; snd pt]) pts) = true ->
  Forall2 (fun pt v => to_float (fst pt) = Some (fst v)
                       /\ to_float (snd pt) = Some (snd v)) pts vals ->
  2 <= length pts ->
  disk' !! SOLUTION_PATH_FILE env
    = Some (Text.table_text [] (map (fun pt => [fst pt; snd pt]) pts)) ->
  outcome to_float env disk = inr tt
  /\ List.filter is_probe_or_later (effects to_float env disk)
     = [IsFile (CONFIG_SPACE_FILE env); IsFile (SOLUTION_PATH_FILE env);
        Open (CONFIG_SPACE_FILE env); Open (SOLUTION_PATH_FILE env);
        Subplots; Pcolormesh G "jet";
        Plot (map fst vals) (map snd vals) "5" "cyan";
        Show; Savefig "solution.png"].
Proof.
  intros Hargv Hexec Hg HG Hclean Hvals Hlen Hp.
  set (rows := map (fun pt : string * string => [fst pt; snd pt]) pts) in *.
  set (table := map (fun v : F * F => [fst v; snd v]) vals).
  assert (Hu : Numpy.uniform 2 rows = true).
  { unfold rows. clear. induction pts as [|pt pts IH]; [reflexivity|].
    simpl. exact IH. }
  assert (Hm : mapM (mapM to_float) rows = Some table).
  { apply mapM_Some_2. unfold rows, table. clear -Hvals.
    induction Hvals as [|pt v pts vals [Hx Hy] _ IH]; constructor; [|exact IH].
    simpl. rewrite Hx, Hy. reflexivity. }
  assert (Hrows : 2 <= length rows) by (unfold rows; rewrite length_map; exact Hlen).
  pose proof (NumpyFacts.loadtxt_text_matrix to_float [] rows 2 table
                eq_refl Hclean Hu Hm Hrows (le_n 2)) as HP.
  assert (Hx : Numpy.column (Numpy.Matrix table 2) 0 = inr (map fst vals)).
  { unfold Numpy.column, table. cbn [Nat.ltb Nat.leb]. clear.
    induction vals as [|v vals IH]; [reflexivity|].
    simpl in *. destruct (mapM _ _); inversion IH. reflexivity. }
  assert (Hy : Numpy.column (Numpy.Matrix table 2) 1 = inr (map snd vals)).
  { unfold Numpy.column, table. cbn [Nat.ltb Nat.leb]. clear.
    induction vals as [|v vals IH]; [reflexivity|].
    simpl in *. destruct (mapM _ _); inversion IH. reflexivity. }
  assert (Hsize : Numpy.size (Numpy.Matrix table 2) <> 0).
  { unfold Numpy.size. cbn [Numpy.shape fold_right].
    rewrite <- (length_mapM _ _ _ Hm). lia. }
  unfold outcome, effects.
  rewrite (run_with_path to_float env _ _ _ _ _ _ _ _ _ _ _ _ _ _ _ _ _
             Hargv Hexec Hg Hp HG HP Hsize Hx Hy).
  cbn [fst snd trace]. split; [reflexivity|].
  unfold warning. destruct (code =? 0)%Z; reflexivity.
Qed.

Lemma path_points_follow_the_file_witness :
  List.filter is_probe_or_later
    (effects Decimal.to_float (Sample.env ["5"; "5"; "1"; "maze"] Sample.ok)
       (Sample.both (Text.table_text Sample.header Sample.grid5)
          (Text.unlines ["4 1"; "3 2"; "3 0.5"])))
  = [IsFile Sample.grid_path; IsFile Sample.path_path;
     Open Sample.grid_path; Open Sample.path_path;
     Subplots; Pcolormesh Sample.grid5_values "jet";
     Plot [Decimal.of_Z 4; Decimal.of_Z 3; Decimal.of_Z 3]
          [Decimal.of_Z 1; Decimal.of_Z 2; Decimal.Finite (1 # 2)]
          "5" "cyan";
     Show; Savefig "solution.png"].
Proof.
  assert (Hvals : Forall2
            (fun (pt : string * string) (v : Decimal.value * Decimal.value) =>
               Decimal.to_float (fst pt) = Some (fst v)
               /\ Decimal.to_float (snd pt) = Some (snd v))
            [("4", "1"); ("3", "2"); ("3", "0.5")]
            [(Decimal.of_Z 4, Decimal.of_Z 1); (Decimal.of_Z 3, Decimal.of_Z 2);
             (Decimal.of_Z 3, Decimal.Finite (1 # 2))])
    by (repeat constructor).
  exact (proj2 (path_points_follow_the_file Decimal.to_float
                  (Sample.env ["5"; "5"; "1"; "maze"] Sample.ok)
                  "run-save-bb8.py" "5" "5" "1" "maze" []
                  (Sample.both (Text.table_text Sample.header Sample.grid5)
                     (Text.unlines ["4 1"; "3 2"; "3 0.5"]))
                  0 "path found"
                  (Sample.both (Text.table_text Sample.header Sample.grid5)
                     (Text.unlines ["4 1"; "3 2"; "3 0.5"]))
                  (Text.table_text Sample.header Sample.grid5)
                  Sample.grid5_values 5
                  [("4", "1"); ("3", "2"); ("3", "0.5")]
                  [(Decimal.of_Z 4, Decimal.of_Z 1); (Decimal.of_Z 3, Decimal.of_Z 2);
                   (Decimal.of_Z 3, Decimal.Finite (1 # 2))]
                  eq_refl eq_refl eq_refl eq_refl eq_refl Hvals
                  (le_S 2 2 (le_n 2)) eq_refl)).
Defined.

(** ** Line ends *)

(** X9.  The two data files are read in text mode, so files written
    with a carriage return before every line feed give the same run as
    the files without: the same outcome and the same events, whatever the
    files hold. *)
Theorem carriage_returns_make_no_difference {F} (to_float : string -> option F)
    env script M N r o rest disk1 disk2 code out after1 after2 g p :
  sys_argv env = script :: M :: N :: r :: o :: rest ->
  exec env [SAVE_BB8 env; M; N; r; o] disk1 = (Exited code out, after1) ->
  exec env [SAVE_BB8 env; M; N; r; o] disk2 = (Exited code out, after2) ->
  Text.free_of Text.CR g = true ->
  Text.free_of Text.CR p = true ->
  after1 !! CONFIG_SPACE_FILE env = Some g ->
  after1 !! SOLUTION_PATH_FILE env = Some p ->
  after2 !! CONFIG_SPACE_FILE env = Some (Text.to_crlf g) ->
  after2 !! SOLUTION_PATH_FILE env = Some (Text.to_crlf p) ->
  outcome to_float env disk1 = outcome to_float env disk2
  /\ effects to_float env disk1 = effects to_float env disk2.
Proof.
  intros Hargv Hexec1 Hexec2 Hcg Hcp Hg1 Hp1 Hg2 Hp2.
  destruct (loadtxt_text_crlf to_float 3 g Hcg) as [EG EGd].
  destruct (loadtxt_text_crlf to_float 0 p Hcp) as [EP EPd].
  unfold outcome, effects.
  rewrite (run_exited to_float env _ _ _ _ _ _ _ _ _ _ Hargv Hexec1).
  rewrite (run_exited to_float env _ _ _ _ _ _ _ _ _ _ Hargv Hexec2).
  rewrite !after_solver_cases, Hg1, Hp1, Hg2, Hp2.
  unfold no_data_warning. rewrite EG, EP, EGd, EPd.
  split; split_cases; reflexivity.
Qed.

Lemma carriage_returns_make_no_difference_witness :
  effects Decimal.to_float (Sample.env ["5"; "5"; "1"; "maze"] Sample.ok)
    (Sample.both (Text.table_text Sample.header Sample.grid5)
       (Text.unlines ["1 1"; "2 2"; "3 3"]))
  = effects Decimal.to_float (Sample.env ["5"; "5"; "1"; "maze"] Sample.ok)
      (Sample.both (Text.to_crlf (Text.table_text Sample.header Sample.grid5))
         (Text.to_crlf (Text.unlines ["1 1"; "2 2"; "3 3"]))).
Proof.
  apply (carriage_returns_make_no_difference Decimal.to_float
           (Sample.env ["5"; "5"; "1"; "maze"] Sample.ok)
           "run-save-bb8.py" "5" "5" "1" "maze" []
           (Sample.both (Text.table_text Sample.header Sample.grid5)
              (Text.unlines ["1 1"; "2 2"; "3 3"]))
           (Sample.both (Text.to_crlf (Text.table_text Sample.header Sample.grid5))
              (Text.to_crlf (Text.unlines ["1 1"; "2 2"; "3 3"])))
           0 "path found"
           (Sample.both (Text.table_text Sample.header Sample.grid5)
              (Text.unlines ["1 1"; "2 2"; "3 3"]))
           (Sample.both (Text.to_crlf (Text.table_text Sample.header Sample.grid5))
              (Text.to_crlf (Text.unlines ["1 1"; "2 2"; "3 3"])))
           (Text.table_text Sample.header Sample.grid5)
           (Text.unlines ["1 1"; "2 2"; "3 3"])); reflexivity.
Defined.

(** ** The paths *)

Module PathFacts.

Lemma append_assoc (a b c : string) : (a +:+ b) +:+ c = a +:+ (b +:+ c).
Proof.
  induction a as [|x a IH]; [reflexivity|].
  change (String x ((a +:+ b) +:+ c) = String x (a +:+ (b +:+ c))).
  f_equal. exact IH.
Qed.

Lemma append_cancel (a x y : string) : a +:+ x = a +:+ y -> x = y.
Proof.
  induction a as [|c a IH]; intros H; [exact H|].
  change (String c (a +:+ x) = String c (a +:+ y)) in H.
  inversion H. auto.
Qed.

End PathFacts.

(** X10.  Whatever the directory of the script and the platform, the
    solver executable, the grid file and the path file are three different
    paths: the two probes of [main] look for two different files, and
    neither is the executable. *)
Theorem solver_and_data_paths_differ env :
  CONFIG_SPACE_FILE env <> SOLUTION_PATH_FILE env
  /\ SAVE_BB8 env <> CONFIG_SPACE_FILE env
  /\ SAVE_BB8 env <> SOLUTION_PATH_FILE env.
Proof.
  unfold CONFIG_SPACE_FILE, SOLUTION_PATH_FILE, SAVE_BB8, _OUTPUT_DIR, _BIN_DIR,
    _EXE_NAME, _PROJECT_DIR, path_join.
  rewrite !PathFacts.append_assoc.
  repeat split; intros H; apply PathFacts.append_cancel in H;
    destruct (is_windows env); discriminate H.
Qed.

(** ** The command line *)

(** X11.  Of the command line, [main] uses the four arguments after the
    name of the script and nothing else: two command lines that agree on
    these four give the same run, whatever the name of the script is and
    whatever arguments follow the fourth. *)
Theorem only_four_arguments_are_used {F} (to_float : string -> option F)
    env1 env2 script1 script2 M N r o rest1 rest2 disk :
  platform_system env1 = platform_system env2 ->
  script_parent env1 = script_parent env2 ->
  (forall cmd d, exec env1 cmd d = exec env2 cmd d) ->
  sys_argv env1 = script1 :: M :: N :: r :: o :: rest1 ->
  sys_argv env2 = script2 :: M :: N :: r :: o :: rest2 ->
  run to_float env1 disk = run to_float env2 disk.
Proof.
  intros Hsys Hparent Hexec Hargv1 Hargv2.
  assert (Hexe : SAVE_BB8 env1 = SAVE_BB8 env2).
  { unfold SAVE_BB8, _BIN_DIR, _EXE_NAME, _PROJECT_DIR, is_windows.
    rewrite Hsys, Hparent. reflexivity. }
  rewrite !run_cases, Hargv1, Hargv2, Hexe, Hexec.
  rewrite (after_solver_same_paths to_float env1 env2 Hparent).
  reflexivity.
Qed.

Lemma only_four_arguments_are_used_witness :
  run Decimal.to_float (Sample.env ["5"; "5"; "1"; "maze"] Sample.ok)
    (Sample.both (Text.table_text Sample.header Sample.grid5) EmptyString)
  = run Decimal.to_float
      {| platform_system := "Linux"; script_parent := "/home/kb/shield";
         sys_argv := ["./run-save-bb8.py"; "5"; "5"; "1"; "maze"; "--verbose"; "7"];
         exec := fun _ disk => (Sample.ok, disk) |}
      (Sample.both (Text.table_text Sample.header Sample.grid5) EmptyString).
Proof.
  apply (only_four_arguments_are_used Decimal.to_float
           (Sample.env ["5"; "5"; "1"; "maze"] Sample.ok)
           {| platform_system := "Linux"; script_parent := "/home/kb/shield";
              sys_argv := ["./run-save-bb8.py"; "5"; "5"; "1"; "maze"; "--verbose"; "7"];
              exec := fun _ disk => (Sample.ok, disk) |}
           "run-save-bb8.py" "./run-save-bb8.py" "5" "5" "1" "maze" []
           ["--verbose"; "7"]); reflexivity.
Defined.
